(** * quantmini: ingestion metadata, flattening and partition writing

    A shallow embedding of the parts of the pipeline that carry its
    invariants:

    - [Metadata]: [src/storage/metadata_manager.py] (ledger, watermark,
      summary);
    - [Ingest]: the file loop of [scripts/ingestion/landing_to_bronze.py];
    - [Polars], [Flatten]: the data-frame operations used by
      [scripts/transformation/flatten_fundamentals.py] and the merge, ratio
      and growth-rate steps of [FundamentalsFlattener];
    - [Schema]: [scripts/transformation/extract_fundamental_schemas.py];
    - [Partition]: [write_partitioned_silver] of
      [scripts/transformation/corporate_actions_silver_optimized.py].

    Strings are [string]; Python [None] is [option]'s [None]; a Python
    exception is an explicit error result; the metadata directory is a finite
    map from paths to file contents; a data frame is a list of column names
    and a list of rows, a row mapping its non-null columns to their values;
    Float64 values are IEEE binary64 ([PrimFloat]); counts and statistics are
    exact numbers. The definitions come first, module by module; the facts
    about them follow. *)

From Stdlib Require Import ZArith QArith Floats String List Permutation Sorted Lia.
From Stdlib Require Import OrderedTypeEx.
From stdpp Require Import base option list gmap strings.

Local Open Scope string_scope.
Local Open Scope list_scope.
Local Open Scope Z_scope.

(** ** Python helpers shared by the modules *)

Module Py.

(** Outcome of a call that may raise. *)
Inductive result (A : Type) : Type :=
| Ok (a : A)
| Raise (msg : string).
Arguments Ok {A} a.
Arguments Raise {A} msg.

(** Sequencing of calls that may raise: [x ← e; k]. *)
#[export] Instance result_bind : MBind result :=
  fun A B k x => match x with Ok a => k a | Raise e => Raise e end.

(** Truthiness of an [Optional[str]] argument: [None] and the empty string
    are both false in [if x:]. *)
Definition truthy (o : option string) : bool :=
  match o with
  | Some s => negb (String.eqb s "")
  | None => false
  end.

(** [sub in s] on strings. *)
Fixpoint contains (sub s : string) : bool :=
  String.prefix sub s ||
  match s with
  | EmptyString => false
  | String _ s' => contains sub s'
  end.

(** [s.endswith(suf)]. *)
Definition endswith (s suf : string) : bool :=
  (String.length suf <=? String.length s)%nat &&
  String.eqb (substring (String.length s - String.length suf) (String.length suf) s) suf.

(** [max(l, key=...)] on a non-empty list: the first element whose key is
    maximal ([lt a b] is [key a < key b]). *)
Fixpoint max_by {A} (lt : A -> A -> bool) (best : A) (l : list A) : A :=
  match l with
  | [] => best
  | x :: l' => max_by lt (if lt best x then x else best) l'
  end.

(** [list.sort]: a stable insertion sort for the strict order [lt]
    (an element is placed before the first element that is not smaller). *)
Fixpoint insert_sorted {A} (lt : A -> A -> bool) (x : A) (l : list A) : list A :=
  match l with
  | [] => [x]
  | y :: l' => if lt y x then y :: insert_sorted lt x l' else x :: y :: l'
  end.

Fixpoint sort_by {A} (lt : A -> A -> bool) (l : list A) : list A :=
  match l with
  | [] => []
  | x :: l' => insert_sorted lt x (sort_by lt l')
  end.

(** [sum(1 for x in l if p x)]. *)
Definition count {A} (p : A -> bool) (l : list A) : Z :=
  Z.of_nat (List.length (List.filter p l)).

End Py.
Export Py.

(** ** MetadataManager *)

Module Metadata.

(** A path below [metadata_root], as its components. Components are taken
    whole: this is what [pathlib] does with a component that has no
    separator in it and is not [.] or [..] (see [path_safe] below; the
    statements that depend on which files are distinct or lie below a
    directory carry it as a hypothesis). An empty component leaves a
    [pathlib] path unchanged. *)
Definition path := list string.

Definition joinpath (p : path) (c : string) : path :=
  if String.eqb c "" then p else p ++ [c].

(** Values met in an ingestion's [statistics] dictionary: numbers (counts,
    sizes, times) and text (reasons, dates). Numbers are kept exact. *)
Inductive stat : Type :=
| SNum (q : Q)
| SText (s : string).

(** The ledger record built by [record_ingestion]. *)
Record record : Type := mkRecord {
  r_data_type : string;
  r_date : string;
  r_symbol : option string;
  r_status : string;
  r_layer : string;
  r_timestamp : string;
  r_statistics : gmap string stat;
  r_error : option string
}.

(** The document written by [set_watermark]. *)
Record watermark : Type := mkWatermark {
  w_data_type : string;
  w_symbol : option string;
  w_date : string;
  w_layer : string;
  w_timestamp : string
}.

(** Content of a JSON file under the metadata root: what the manager wrote
    there ([json.load] gives back what [json.dump] was given). *)
Inductive file : Type :=
| LedgerFile (r : record)
| WatermarkFile (w : watermark).

(** The metadata directory tree: the files it holds, by path. Directories
    are not represented: [mkdir(parents=True, exist_ok=True)] never fails
    and a missing directory lists no file. *)
Abbreviation FS := (gmap (list string) file).

(** [_get_metadata_file] *)
Definition metadata_file_name (date : string) (symbol : option string) : string :=
  if truthy symbol
  then date +:+ "_" +:+ default "" symbol +:+ ".json"
  else date +:+ ".json".

Definition _get_metadata_file (data_type date : string) (symbol : option string)
    (layer : string) : path :=
  let path := joinpath (joinpath (joinpath (joinpath [] layer) data_type)
                          (substring 0 4 date)) (substring 5 2 date) in
  joinpath path (metadata_file_name date symbol).

(** [_get_watermark_file] *)
Definition watermark_file_name (symbol : option string) : string :=
  if truthy symbol
  then "watermark_" +:+ default "" symbol +:+ ".json"
  else "watermark.json".

Definition _get_watermark_file (data_type : string) (symbol : option string)
    (layer : string) : path :=
  let path := joinpath (joinpath [] layer) data_type in
  joinpath path (watermark_file_name symbol).

(** [record_ingestion]; [now] is the reading of [datetime.now().isoformat()].
    The file is opened with mode ['w']: an existing file is replaced. *)
Definition record_ingestion (data_type date status : string)
    (statistics : gmap string stat) (symbol error : option string)
    (layer : string) (now : string) (fs : FS) : FS :=
  let record := mkRecord data_type date symbol status layer now statistics error in
  let metadata_file := _get_metadata_file data_type date symbol layer in
  <[metadata_file := LedgerFile record]> fs.

(** [set_watermark] *)
Definition set_watermark (data_type date : string) (symbol : option string)
    (layer : string) (now : string) (fs : FS) : FS :=
  let watermark_file := _get_watermark_file data_type symbol layer in
  let watermark := mkWatermark data_type symbol date layer now in
  <[watermark_file := WatermarkFile watermark]> fs.

(** [get_ingestion_status] (the layer defaults to ['bronze']). *)
Definition get_ingestion_status (data_type date : string) (symbol : option string)
    (fs : FS) : option file :=
  fs !! _get_metadata_file data_type date symbol "bronze".

(** [dir.rglob('*.json')]: the files strictly below [dir] whose name ends in
    [.json], in the order the directory is listed. *)
Definition rglob_json (dir : path) (fs : FS) : list (path * file) :=
  List.filter
    (fun pf => bool_decide (dir `prefix_of` pf.1)
               && (List.length dir <? List.length pf.1)%nat
               && endswith (List.last pf.1 "") ".json")
    (map_to_list fs).

(** Directories searched by [list_ingestions]. A directory that does not
    exist lists nothing, so the [exists()] tests do not change the result. *)
Definition search_dirs (data_type : string) (layer : option string) : list path :=
  if truthy layer
  then [joinpath (joinpath [] (default "" layer)) data_type]
  else List.map (fun layer_name => joinpath (joinpath [] layer_name) data_type)
         ["landing"; "bronze"; "silver"; "gold"]
       ++ [joinpath [] data_type].

(** The filters of [list_ingestions] on one loaded file: [None] for a file
    that is skipped. *)
Definition keep_record (start_date end_date status : option string)
    (pf : path * file) : option record :=
  if contains "watermark" (List.last pf.1 "") then None
  else match pf.2 with
       | WatermarkFile _ => None        (* no 'status' key *)
       | LedgerFile record =>
           if truthy start_date && String.ltb (r_date record) (default "" start_date)
           then None
           else if truthy end_date && String.ltb (default "" end_date) (r_date record)
           then None
           else if truthy status && negb (String.eqb (r_status record) (default "" status))
           then None
           else Some record
       end.

(** Sort key [(r['date'], r.get('symbol', ''))]. The record always has the
    key ['symbol'], possibly with value [None]; Python orders two tuples by
    their first differing component, and [None < 'x'] raises [TypeError]. *)
Definition comparable (a b : record) : bool :=
  negb (String.eqb (r_date a) (r_date b)) ||
  match r_symbol a, r_symbol b with
  | None, None | Some _, Some _ => true
  | _, _ => false
  end.

Definition key_lt (a b : record) : bool :=
  if String.eqb (r_date a) (r_date b)
  then match r_symbol a, r_symbol b with
       | Some x, Some y => String.ltb x y
       | _, _ => false
       end
  else String.ltb (r_date a) (r_date b).

(** [records.sort(key=...)]: it raises exactly when two records to order
    have the same date and symbols of different kinds. *)
Definition sort_records (records : list record) : result (list record) :=
  if forallb (fun a => forallb (comparable a) records) records
  then Ok (sort_by key_lt records)
  else Raise "Failed to list ingestions".

(** [list_ingestions] *)
Definition list_ingestions (data_type : string)
    (start_date end_date status layer : option string) (fs : FS)
    : result (list record) :=
  let records :=
    List.flat_map
      (fun metadata_dir =>
         omap (keep_record start_date end_date status) (rglob_json metadata_dir fs))
      (search_dirs data_type layer) in
  sort_records records.

(** [get_watermark]: it only reads, the store is handed back as it came. *)
Definition get_watermark (data_type : string) (symbol : option string)
    (layer : string) (fs : FS) : option string * FS :=
  (match list_ingestions data_type None None (Some "success") (Some layer) fs with
   | Raise _ => None
   | Ok records =>
       let records :=
         if truthy symbol
         then List.filter
                (fun r => bool_decide (r_symbol r = symbol)) records
         else records in
       match records with
       | [] => None
       | r :: rs =>
           let latest := max_by (fun a b => String.ltb (r_date a) (r_date b)) r rs in
           Some (r_date latest)
       end
   end, fs).

(** Values of the dictionary returned by [get_statistics_summary]. *)
Inductive pyval : Type :=
| PStr (s : string)
| PInt (z : Z)
| PNum (q : Q)
| PRange (start end_ : string).

(** [sum(...)] over statistics values; text cannot be added to a number. *)
Fixpoint sum_stats (l : list stat) : result Q :=
  match l with
  | [] => Ok 0%Q
  | SText _ :: _ => Raise "Failed to get statistics summary"
  | SNum q :: l' =>
      match sum_stats l' with
      | Ok t => Ok (Qred (q + t))
      | Raise e => Raise e
      end
  end.

Definition status_is (s : string) (r : record) : bool := String.eqb (r_status r) s.

(** [get_statistics_summary]; the result is the dictionary, key by key in
    the order of the source. *)
Definition get_statistics_summary (data_type : string)
    (start_date end_date layer : option string) (fs : FS)
    : result (list (string * pyval)) :=
  match list_ingestions data_type start_date end_date None layer fs with
  | Raise _ => Raise "Failed to get statistics summary"
  | Ok [] =>
      Ok [("data_type", PStr data_type); ("total_jobs", PInt 0);
          ("success", PInt 0); ("failed", PInt 0); ("skipped", PInt 0)]
  | Ok ((first :: _) as records) =>
      let total_jobs := Z.of_nat (List.length records) in
      let success := count (status_is "success") records in
      let failed := count (status_is "failed") records in
      let skipped := count (status_is "skipped") records in
      let successful_count := success + skipped in
      let total_records :=
        sum_stats
          (List.map
             (fun r =>
                default
                  (default
                     (default (SNum 0) (r_statistics r !! "records_enriched"))
                     (r_statistics r !! "symbols_converted"))
                  (r_statistics r !! "records"))
             (List.filter (status_is "success") records)) in
      let total_size_mb :=
        sum_stats
          (List.map (fun r => default (SNum 0) (r_statistics r !! "file_size_mb"))
             (List.filter (status_is "success") records)) in
      match total_records, total_size_mb with
      | Ok total_records, Ok total_size_mb =>
          Ok [("data_type", PStr data_type);
              ("date_range",
                PRange (if truthy start_date then default "" start_date
                        else r_date first)
                       (if truthy end_date then default "" end_date
                        else r_date (List.last records first)));
              ("total_jobs", PInt total_jobs);
              ("success", PInt success);
              ("failed", PInt failed);
              ("skipped", PInt skipped);
              ("success_rate",
                if 0 <? total_jobs
                then PNum (Qred (inject_Z successful_count / inject_Z total_jobs))
                else PInt 0);
              ("total_records", PNum total_records);
              ("total_size_mb", PNum total_size_mb)]
      | _, _ => Raise "Failed to get statistics summary"
      end
  end.

(** Reading a key of a returned dictionary. *)
Definition dict_get (d : list (string * pyval)) (k : string) : option pyval :=
  snd <$> List.find (fun kv => String.eqb (fst kv) k) d.

Definition dict_keys (d : list (string * pyval)) : list string := List.map fst d.

(** *** Vocabulary of the statements about the manager *)

(** The ledger entries a store holds. *)
Definition ledger_entries (fs : FS) : list record :=
  omap (fun pf => match pf.2 with LedgerFile r => Some r | WatermarkFile _ => None end)
       (map_to_list fs).

(** One ingestion attempt for a fixed partition key. *)
Record attempt : Type := mkAttempt {
  a_status : string;
  a_statistics : gmap string stat;
  a_error : option string;
  a_now : string
}.

Definition record_attempt (data_type date : string) (symbol : option string)
    (layer : string) (fs : FS) (a : attempt) : FS :=
  record_ingestion data_type date (a_status a) (a_statistics a) symbol (a_error a)
    layer (a_now a) fs.

Definition attempt_record (data_type date : string) (symbol : option string)
    (layer : string) (a : attempt) : record :=
  mkRecord data_type date symbol (a_status a) layer (a_now a) (a_statistics a) (a_error a).

(** Statistics that [sum] can add up: no text under the summed keys. *)
Definition summable (r : record) : bool :=
  forallb
    (fun k => match r_statistics r !! k with Some (SText _) => false | _ => true end)
    ["records"; "symbols_converted"; "records_enriched"; "file_size_mb"].

Definition is_num (s : stat) : bool :=
  match s with SNum _ => true | SText _ => false end.

(** A call made on the manager by a pipeline script. *)
Inductive call : Type :=
| RecordIngestion (data_type date status : string) (statistics : gmap string stat)
    (symbol error : option string) (layer now : string)
| SetWatermark (data_type date : string) (symbol : option string) (layer now : string).

Definition run_call (fs : FS) (c : call) : FS :=
  match c with
  | RecordIngestion data_type date status statistics symbol error layer now =>
      record_ingestion data_type date status statistics symbol error layer now fs
  | SetWatermark data_type date symbol layer now =>
      set_watermark data_type date symbol layer now fs
  end.

Definition run_calls (fs : FS) (calls : list call) : FS := foldl run_call fs calls.

(** A path component that [pathlib] and the file system take as one name:
    no separator in it, and not one of the names [.] and [..]. *)
Definition path_safe (c : string) : bool :=
  negb (contains "/" c) && negb (String.eqb c ".") && negb (String.eqb c "..").

(** The components of the ledger file of a key are such names. *)
Definition key_safe (data_type date : string) (symbol : option string)
    (layer : string) : bool :=
  path_safe layer && path_safe data_type
  && path_safe (substring 0 4 date) && path_safe (substring 5 2 date)
  && path_safe (metadata_file_name date symbol).

(** The dates whose latest ledger record is a success, after one more
    call: a [record_ingestion] replaces what was recorded for its date. *)
Definition standing (seen : list string) (c : call) : list string :=
  match c with
  | RecordIngestion _ date status _ _ _ _ _ =>
      let others := List.filter (fun d => negb (String.eqb d date)) seen in
      if String.eqb status "success" then others ++ [date] else others
  | SetWatermark _ _ _ _ _ => seen
  end.

Definition standing_successes (calls : list call) : list string :=
  foldl standing [] calls.

(** A run of one dataset: every ledger call is for the key
    (data_type, symbol, layer), with any status and any date, repeated or
    not; its file is one that [list_ingestions] reads (the name has no
    "watermark" in it) and the components of its path are plain names.
    [set_watermark] calls are for any key, their path components plain
    names too. *)
Definition call_ok (data_type : string) (symbol : option string) (layer : string)
    (c : call) : bool :=
  match c with
  | SetWatermark data_type' _ symbol' layer' _ =>
      path_safe layer' && path_safe data_type'
      && path_safe (watermark_file_name symbol')
  | RecordIngestion data_type' date _ _ symbol' _ layer' _ =>
      String.eqb data_type' data_type
      && bool_decide (symbol' = symbol)
      && String.eqb layer' layer
      && negb (contains "watermark" (metadata_file_name date symbol))
      && key_safe data_type date symbol layer
  end.

(** State of the store during such a run, [seen] being the dates whose
    latest record is a success: ledger files sit at the path of their own
    key and under a name that is listed, a success is a date of [seen],
    watermark files carry "watermark" in their name, and each date of
    [seen] has its success entry. *)
Definition ledger_inv (data_type : string) (symbol : option string) (layer : string)
    (fs : FS) (seen : list string) : Prop :=
  (forall p r, fs !! p = Some (LedgerFile r) ->
     r_symbol r = symbol
     /\ p = _get_metadata_file data_type (r_date r) symbol layer
     /\ contains "watermark" (metadata_file_name (r_date r) symbol) = false
     /\ (r_status r = "success" -> In (r_date r) seen))
  /\ (forall p w, fs !! p = Some (WatermarkFile w) ->
        contains "watermark" (List.last p "") = true)
  /\ (forall d, In d seen ->
        exists r, fs !! _get_metadata_file data_type d symbol layer = Some (LedgerFile r)
                  /\ r_date r = d /\ r_status r = "success").

(** *** Example stores and runs *)

(** Two attempts for one partition key, the first failed. *)
Definition retry_store : FS :=
  record_ingestion "stocks_daily" "2024-01-02" "success" ∅ None None "bronze" "t2"
    (record_ingestion "stocks_daily" "2024-01-02" "failed" ∅ None (Some "boom")
       "bronze" "t1" ∅).

(** Eight successful and two skipped ingestions of January 2024. *)
Definition eight_two_store : FS :=
  foldl (fun fs d => record_ingestion "stocks_daily" d "skipped" ∅ None None "bronze" "t" fs)
    (foldl (fun fs d => record_ingestion "stocks_daily" d "success"
                          {[ "records" := SNum 100; "reason" := SText "" ]}
                          None None "bronze" "t" fs)
       ∅ ["2024-01-02"; "2024-01-03"; "2024-01-04"; "2024-01-05"; "2024-01-08";
          "2024-01-09"; "2024-01-10"; "2024-01-11"])
    ["2024-01-12"; "2024-01-16"].

(** A run of [landing_to_bronze] over three days, the second of which fails. *)
Definition three_day_run : list call :=
  [RecordIngestion "stocks_daily" "2024-01-02" "success" ∅ None None "bronze" "t1";
   SetWatermark "stocks_daily" "2024-01-02" None "bronze" "t2";
   RecordIngestion "stocks_daily" "2024-01-03" "failed" ∅ None (Some "boom") "bronze" "t3";
   RecordIngestion "stocks_daily" "2024-01-04" "success" ∅ None None "bronze" "t4";
   SetWatermark "stocks_daily" "2024-01-09" None "bronze" "t5"].

(** A run with retries: 2024-01-02 fails and then succeeds, 2024-01-03
    succeeds and is then recorded as failed, 2024-01-04 fails. *)
Definition retry_run : list call :=
  [RecordIngestion "stocks_daily" "2024-01-02" "failed" ∅ None (Some "boom") "bronze" "t1";
   RecordIngestion "stocks_daily" "2024-01-02" "success" ∅ None None "bronze" "t2";
   SetWatermark "stocks_daily" "2024-01-02" None "bronze" "t3";
   RecordIngestion "stocks_daily" "2024-01-03" "success" ∅ None None "bronze" "t4";
   SetWatermark "stocks_daily" "2024-01-03" None "bronze" "t5";
   RecordIngestion "stocks_daily" "2024-01-03" "failed" ∅ None (Some "boom") "bronze" "t6";
   RecordIngestion "stocks_daily" "2024-01-04" "failed" ∅ None (Some "boom") "bronze" "t7"].

(** A success recorded for the symbol named "watermark". *)
Definition watermark_symbol_store : FS :=
  record_ingestion "stocks_minute" "2024-01-02" "success" ∅ (Some "watermark") None
    "bronze" "t1" ∅.

End Metadata.

(** ** landing_to_bronze: the incremental file loop *)

Module Ingest.
Import Metadata.

(** A landing file is named after its date ([get_landing_files] builds
    [<landing>/polygon-s3/<data_type>/YYYY/MM/YYYY-MM-DD.csv.gz] from the
    calendar days of the range); it is represented by that date, which is
    what [landing_file.stem.replace('.csv', '')] gives back as [file_date]. *)
Definition landing_file := string.

(** Input and output performed on a unit. *)
Inductive event : Type :=
| GzipRead (file_date : string)
| IngestDate (file_date : string).

Definition event_date (e : event) : string :=
  match e with GzipRead d | IngestDate d => d end.

(** State threaded through the loop: the metadata store, the two counters,
    the trace of I/O done on units and the number of clock readings. *)
Record state : Type := mkState {
  st_fs : FS;
  files_processed : Z;
  total_rows : Q;
  st_trace : list event;
  st_clock : nat
}.

Inductive summary : Type :=
| NoData
| Completed (files_available files_processed : Z) (total_rows : Q).

Section Loop.

(** The collaborators of the loop: reading and decompressing a landing file
    (it may raise), the ingestor's [ingest_date] (it may raise, return
    [None], or return a result dictionary) and the clock. *)
Variable gzip_read : string -> result (list Byte.byte).
Variable ingest_date : string -> list Byte.byte -> result (option (gmap string stat)).
Variable isoformat_now : nat -> string.

Variable data_type : string.

(** [metadata_manager.record_ingestion(...)] with the default symbol and
    layer, at the next clock reading. *)
Definition record (date status : string) (statistics : gmap string stat)
    (error : option string) (st : state) : state :=
  mkState
    (record_ingestion data_type date status statistics None error "bronze"
       (isoformat_now (st_clock st)) (st_fs st))
    (files_processed st) (total_rows st) (st_trace st) (S (st_clock st)).

Definition set_mark (date : string) (st : state) : state :=
  mkState
    (set_watermark data_type date None "bronze" (isoformat_now (st_clock st)) (st_fs st))
    (files_processed st) (total_rows st) (st_trace st) (S (st_clock st)).

Definition log_event (e : event) (st : state) : state :=
  mkState (st_fs st) (files_processed st) (total_rows st) (st_trace st ++ [e])
    (st_clock st).

(** The [except Exception] branch of the loop body. *)
Definition record_error (file_date msg : string) (st : state) : state :=
  record file_date "failed" ∅ (Some msg) st.

Definition result_status (result : gmap string stat) : option string :=
  match result !! "status" with
  | Some (SText s) => Some s
  | _ => None
  end.

(** One iteration of [for i, landing_file in enumerate(landing_files)]. *)
Definition process_file (incremental : bool) (last_watermark : option string)
    (st : state) (file_date : landing_file) : state :=
  if incremental && truthy last_watermark
     && String.leb file_date (default "" last_watermark)
  then st                                   (* continue *)
  else
    let st := log_event (GzipRead file_date) st in
    match gzip_read file_date with
    | Raise msg => record_error file_date msg st
    | Ok csv_data =>
        let st := log_event (IngestDate file_date) st in
        match ingest_date file_date csv_data with
        | Raise msg => record_error file_date msg st
        | Ok result =>
            let ok :=
              match result with
              | Some result =>
                  negb (bool_decide (result = ∅))
                  && match result_status result with
                     | Some s => String.eqb s "success" || String.eqb s "skipped"
                     | None => false
                     end
              | None => false
              end in
            if ok then
              let result := default ∅ result in
              let st := mkState (st_fs st) (files_processed st + 1) (total_rows st)
                          (st_trace st) (st_clock st) in
              match default (SNum 0) (result !! "records") with
              | SText _ =>
                  (* total_rows += rows_written raises TypeError *)
                  record_error file_date "unsupported operand type(s) for +=" st
              | SNum rows_written =>
                  let st := mkState (st_fs st) (files_processed st)
                              (Qred (total_rows st + rows_written))
                              (st_trace st) (st_clock st) in
                  let st :=
                    record file_date (default "" (result_status result))
                      {[ "records" := SNum rows_written;
                         "file_size_mb" := default (SNum 0) (result !! "file_size_mb");
                         "processing_time_sec" :=
                           default (SNum 0) (result !! "processing_time_sec");
                         "reason" := default (SText "") (result !! "reason") ]}
                      None st in
                  set_mark file_date st
              end
            else
              record file_date "failed" ∅
                (Some "Ingestion returned non-success status") st
        end
    end.

(** [process_landing_to_bronze], from the list of landing files on. *)
Definition process_landing_to_bronze (landing_files : list landing_file)
    (incremental : bool) (fs : FS) : summary * state :=
  let st0 := mkState fs 0 0%Q [] 0 in
  match landing_files with
  | [] => (NoData, st0)
  | _ =>
      let last_watermark :=
        if incremental then (get_watermark data_type None "bronze" fs).1 else None in
      let st := foldl (process_file incremental last_watermark) st0 landing_files in
      (Completed (Z.of_nat (List.length landing_files)) (files_processed st)
         (total_rows st), st)
  end.

End Loop.

(** What a state keeps about the unit [d]: its ledger file and the events
    on it. *)
Definition same_for (data_type d : string) (st st' : state) : Prop :=
  st_fs st' !! _get_metadata_file data_type d None "bronze"
  = st_fs st !! _get_metadata_file data_type d None "bronze"
  /\ forall e, In e (st_trace st') -> event_date e = d -> In e (st_trace st).

(** An ingestor that succeeds on every file with ten rows, and a fixed
    clock: enough to run the loop on examples. *)
Definition always_reads (file_date : string) : result (list Byte.byte) := Ok [].

Definition always_ingests (file_date : string) (data : list Byte.byte)
    : result (option (gmap string stat)) :=
  Ok (Some {[ "status" := SText "success"; "records" := SNum 10 ]}).

Definition fixed_clock (n : nat) : string := "2024-02-01T00:00:00".

(** A bronze ledger whose watermark is 2024-01-03, and three landing files
    around it. *)
Definition ledger_up_to_jan3 : FS :=
  record_ingestion "stocks_daily" "2024-01-03" "success" ∅ None None "bronze"
    "2024-01-03T20:00:00" ∅.

Definition january_files : list landing_file :=
  ["2024-01-02"; "2024-01-03"; "2024-01-04"].

Definition january_run : summary * state :=
  process_landing_to_bronze always_reads always_ingests fixed_clock "stocks_daily"
    january_files true ledger_up_to_jan3.

End Ingest.

(** ** Data frames *)

Module Polars.

(** A non-null value of a column. Float64 is IEEE binary64. *)
Inductive value : Type :=
| VStr (s : string)
| VInt (z : Z)
| VFloat (f : float)
| VBool (b : bool)
| VDate (year month day : Z).

(** A row maps the names of its non-null columns to their values: a column
    that is missing from the map is null in that row. *)
Abbreviation row := (gmap string value).

Record DataFrame : Type := mkDataFrame {
  columns : list string;
  rows : list row
}.

Definition height (df : DataFrame) : nat := List.length (rows df).

Definition has_column (df : DataFrame) (c : string) : bool :=
  existsb (String.eqb c) (columns df).

(** Setting one cell; [None] makes it null. *)
Definition set_cell (name : string) (v : option value) (r : row) : row :=
  match v with
  | Some v => <[name := v]> r
  | None => delete name r
  end.

(** [df.with_columns(expr.alias(name))] for a row-wise expression: an
    existing column of that name is replaced in place, a new one is added
    last. *)
Definition with_column (name : string) (expr : row -> option value)
    (df : DataFrame) : DataFrame :=
  mkDataFrame
    (if has_column df name then columns df else columns df ++ [name])
    (List.map (fun r => set_cell name (expr r) r) (rows df)).

(** [df.with_columns(series.alias(name))] for a column computed over the
    whole frame (a window expression), given row by row. *)
Definition with_series (name : string) (series : list (option value))
    (df : DataFrame) : DataFrame :=
  mkDataFrame
    (if has_column df name then columns df else columns df ++ [name])
    (List.map (fun rv => set_cell name rv.2 rv.1) (List.combine (rows df) series)).

(** [df.select(cols)] *)
Definition select (cols : list string) (df : DataFrame) : result DataFrame :=
  if negb (forallb (has_column df) cols) then Raise "ColumnNotFoundError"
  else if negb (bool_decide (NoDup cols)) then Raise "DuplicateError"
  else Ok (mkDataFrame cols
             (List.map (fun r : row => filter (fun kv => kv.1 ∈ cols) r) (rows df))).

(** [df.drop(cols)] *)
Definition drop (cols : list string) (df : DataFrame) : result DataFrame :=
  if negb (forallb (has_column df) cols) then Raise "ColumnNotFoundError"
  else Ok (mkDataFrame
             (List.filter (fun c => negb (existsb (String.eqb c) cols)) (columns df))
             (List.map (fun r : row => filter (fun kv => kv.1 ∉ cols) r) (rows df))).

(** Equality of two non-null values, as a join or a filter sees it. *)
Definition value_eqb (a b : value) : bool :=
  match a, b with
  | VStr x, VStr y => String.eqb x y
  | VInt x, VInt y => Z.eqb x y
  | VFloat x, VFloat y => PrimFloat.eqb x y
  | VBool x, VBool y => Bool.eqb x y
  | VDate y1 m1 d1, VDate y2 m2 d2 => Z.eqb y1 y2 && Z.eqb m1 m2 && Z.eqb d1 d2
  | _, _ => false
  end.

(** [pl.col(c) == lit]: null when either side is null. *)
Definition cell_eq (a b : option value) : option bool :=
  match a, b with
  | Some x, Some y => Some (value_eqb x y)
  | _, _ => None
  end.

(** Two rows match on the join keys: every key is non-null on both sides
    and equal (null keys never match, [join_nulls=False]). *)
Definition keys_match (on : list string) (l r : row) : bool :=
  forallb (fun k => default false (cell_eq (l !! k) (r !! k))) on.

(** Name of a right-hand column in the joined frame. In a full join the key
    columns of both sides are kept ([coalesce] is off unless asked for), so
    the right-hand keys collide with the left-hand ones and take the
    suffix, like any other column name the left side already has. *)
Definition right_name (left_columns : list string) (suffix c : string) : string :=
  if existsb (String.eqb c) left_columns then c +:+ suffix else c.

Definition rename_right (left_columns : list string) (suffix : string)
    (right_columns : list string) (r : row) : row :=
  foldr (fun c acc => match r !! c with
                      | Some v => <[right_name left_columns suffix c := v]> acc
                      | None => acc
                      end) ∅ right_columns.

(** [left.join(right, on=on, how='full', suffix=suffix)]: every left row
    with each right row it matches (or alone, the right side null), then the
    right rows that matched no left row, their left side null. Polars does
    not fix the order of the joined rows; this is one such order. *)
Definition join_full (left right : DataFrame) (on : list string) (suffix : string)
    : result DataFrame :=
  let cols := columns left
              ++ List.map (right_name (columns left) suffix) (columns right) in
  if negb (forallb (has_column left) on && forallb (has_column right) on)
  then Raise "ColumnNotFoundError"
  else if negb (bool_decide (NoDup cols)) then Raise "DuplicateError"
  else
    let rn := rename_right (columns left) suffix (columns right) in
    let from_left :=
      List.flat_map
        (fun l => match List.filter (keys_match on l) (rows right) with
                  | [] => [l]
                  | ms => List.map (fun r => l ∪ rn r) ms
                  end) (rows left) in
    let from_right :=
      List.map rn
        (List.filter (fun r => negb (existsb (fun l => keys_match on l r) (rows left)))
           (rows right)) in
    Ok (mkDataFrame cols (from_left ++ from_right)).

(** Order of two non-null values of the same type. *)
Definition value_ltb (a b : value) : bool :=
  match a, b with
  | VStr x, VStr y => String.ltb x y
  | VInt x, VInt y => Z.ltb x y
  | VFloat x, VFloat y => PrimFloat.ltb x y
  | VBool x, VBool y => negb x && y
  | VDate y1 m1 d1, VDate y2 m2 d2 =>
      Z.ltb y1 y2 || (Z.eqb y1 y2 && (Z.ltb m1 m2 || (Z.eqb m1 m2 && Z.ltb d1 d2)))
  | _, _ => false
  end.

(** Order of two cells in an ascending sort: nulls come first. *)
Definition cell_ltb (a b : option value) : bool :=
  match a, b with
  | None, Some _ => true
  | Some x, Some y => value_ltb x y
  | _, None => false
  end.

(** Lexicographic order of two rows on the columns [by]. *)
Fixpoint row_ltb (by_ : list string) (a b : row) : bool :=
  match by_ with
  | [] => false
  | c :: by' =>
      cell_ltb (a !! c) (b !! c)
      || (negb (cell_ltb (b !! c) (a !! c)) && row_ltb by' a b)
  end.

(** [df.sort(by)], ascending. Rows that compare equal keep their order
    here; Polars leaves their order open. *)
Definition sort (by_ : list string) (df : DataFrame) : DataFrame :=
  mkDataFrame (columns df) (sort_by (row_ltb by_) (rows df)).

(** [df.sort(c, descending=True)]: largest first, nulls still first. *)
Definition cell_gtb_nulls_first (a b : option value) : bool :=
  match a, b with
  | None, Some _ => true
  | Some x, Some y => value_ltb y x
  | _, None => false
  end.

Definition sort_descending (c : string) (df : DataFrame) : DataFrame :=
  mkDataFrame (columns df)
    (sort_by (fun a b => cell_gtb_nulls_first (a !! c) (b !! c)) (rows df)).

(** Float64 arithmetic on cells: null if an operand is null. The metric
    columns are Float64 when the derived metrics are computed (the integer
    columns are cast first); a cell is read as a float or as null. *)
Definition as_float (c : option value) : option float :=
  match c with
  | Some (VFloat f) => Some f
  | _ => None
  end.

Definition float_op (op : float -> float -> float) (a b : option value) : option value :=
  match as_float a, as_float b with
  | Some x, Some y => Some (VFloat (op x y))
  | _, _ => None
  end.

Definition cell_div := float_op PrimFloat.div.
Definition cell_sub := float_op PrimFloat.sub.
Definition cell_abs (a : option value) : option value :=
  match as_float a with
  | Some x => Some (VFloat (PrimFloat.abs x))
  | None => None
  end.

(** [pl.col(col).shift(n).over(by)] on the rows in frame order: the value
    of [col] [n] rows earlier within the rows that have the same value of
    [by] (a String column; its nulls form one group), null when the group
    has no such row. [hist] keeps, for each group met so far, its values of
    [col], latest first. *)
Definition group_key (by_ : string) (r : row) : option string :=
  match r !! by_ with
  | Some (VStr s) => Some s
  | _ => None
  end.

Fixpoint shift_over_from (hist : gmap (option string) (list (option value)))
    (n : nat) (col by_ : string) (rs : list row) : list (option value) :=
  match rs with
  | [] => []
  | r :: rs' =>
      let g := group_key by_ r in
      let seen := (r !! col) :: default [] (hist !! g) in
      default None (seen !! n)
        :: shift_over_from (<[g := seen]> hist) n col by_ rs'
  end.

Definition shift_over (n : nat) (col by_ : string) (rs : list row)
    : list (option value) :=
  shift_over_from ∅ n col by_ rs.

(** No element of a sorted list is followed by a smaller one ([lt] is the
    strict order the sort was given). *)
Definition ascending {A} (lt : A -> A -> bool) : list A -> Prop :=
  Sorted (fun a b => lt b a = false).

End Polars.

(** ** FundamentalsFlattener: merge, ratios, growth rates *)

Module Flatten.
Import Polars.

Definition key_cols : list string :=
  ["ticker"; "filing_date"; "fiscal_year"; "fiscal_period"].

(** [get_metric_cols] *)
Definition get_metric_cols (df : DataFrame) (key_cols : list string) : list string :=
  let all_key_cols := List.filter (has_column df) key_cols in
  List.filter (fun c => negb (existsb (String.eqb c) all_key_cols)) (columns df).

(** One join step of [_flatten_ticker]: select the keys and metrics of the
    statement, full join on the keys, then drop the columns that carry the
    suffix. *)
Definition join_statement (merged flat : DataFrame) (suffix : string)
    : result DataFrame :=
  let metric_cols := get_metric_cols flat key_cols in
  to_join ← select (key_cols ++ metric_cols) flat;
  merged ← join_full merged to_join key_cols suffix;
  let dup_cols := List.filter (fun c => endswith c suffix) (columns merged) in
  match dup_cols with
  | [] => Ok merged
  | _ => drop dup_cols merged
  end.

(** [_flatten_ticker] from the three flattened statements on (each absent
    when the ticker has no file of that type). [merged] starts as the first
    statement present; [merged is not is_flat] holds exactly when that was
    the balance sheet, and [merged is not cf_flat] when it was not the cash
    flow. *)
Definition _flatten_ticker (bs_flat is_flat cf_flat : option DataFrame)
    : result (option DataFrame) :=
  match bs_flat, is_flat, cf_flat with
  | None, None, None => Ok None
  | Some bs, _, _ =>
      merged ← match is_flat with
                | Some is_ => join_statement bs is_ "_is_dup"
                | None => Ok bs
                end;
      merged ← match cf_flat with
                | Some cf => join_statement merged cf "_cf_dup"
                | None => Ok merged
                end;
      Ok (Some merged)
  | None, Some is_, _ =>
      merged ← match cf_flat with
                | Some cf => join_statement is_ cf "_cf_dup"
                | None => Ok is_
                end;
      Ok (Some merged)
  | None, None, Some cf => Ok (Some cf)
  end.

(** One ratio of [_calculate_financial_ratios]: added when the columns it
    needs are in [df] (the frame the function was given). *)
Definition add_ratio (df : DataFrame) (needs : list string) (name : string)
    (expr : row -> option value) (result : DataFrame) : DataFrame :=
  if forallb (has_column df) needs then with_column name expr result else result.

(** [_calculate_financial_ratios] *)
Definition _calculate_financial_ratios (df : DataFrame) : DataFrame :=
  let result := df in
  let result :=
    add_ratio df ["is_net_income_loss"; "bs_equity"] "ratio_roe"
      (fun r => cell_div (r !! "is_net_income_loss") (r !! "bs_equity")) result in
  let result :=
    add_ratio df ["is_net_income_loss"; "bs_assets"] "ratio_roa"
      (fun r => cell_div (r !! "is_net_income_loss") (r !! "bs_assets")) result in
  let result :=
    add_ratio df ["is_net_income_loss"; "is_revenues"] "ratio_profit_margin"
      (fun r => cell_div (r !! "is_net_income_loss") (r !! "is_revenues")) result in
  let result :=
    add_ratio df ["is_operating_income_loss"; "is_revenues"] "ratio_operating_margin"
      (fun r => cell_div (r !! "is_operating_income_loss") (r !! "is_revenues")) result in
  let result :=
    add_ratio df ["bs_current_assets"; "bs_current_liabilities"] "ratio_current"
      (fun r => cell_div (r !! "bs_current_assets") (r !! "bs_current_liabilities"))
      result in
  let result :=
    add_ratio df ["bs_current_assets"; "bs_inventory"; "bs_current_liabilities"]
      "ratio_quick"
      (fun r => cell_div (cell_sub (r !! "bs_current_assets") (r !! "bs_inventory"))
                  (r !! "bs_current_liabilities")) result in
  let result :=
    add_ratio df ["bs_liabilities"; "bs_equity"] "ratio_debt_to_equity"
      (fun r => cell_div (r !! "bs_liabilities") (r !! "bs_equity")) result in
  let result :=
    add_ratio df ["bs_liabilities"; "bs_assets"] "ratio_debt_to_assets"
      (fun r => cell_div (r !! "bs_liabilities") (r !! "bs_assets")) result in
  result.

(** The ratios of [_calculate_financial_ratios] as a table: the columns
    needed, the name of the ratio and its expression. *)
Definition ratios : list (list string * string * (row -> option value)) :=
  [ (["is_net_income_loss"; "bs_equity"], "ratio_roe",
      fun r => cell_div (r !! "is_net_income_loss") (r !! "bs_equity"));
    (["is_net_income_loss"; "bs_assets"], "ratio_roa",
      fun r => cell_div (r !! "is_net_income_loss") (r !! "bs_assets"));
    (["is_net_income_loss"; "is_revenues"], "ratio_profit_margin",
      fun r => cell_div (r !! "is_net_income_loss") (r !! "is_revenues"));
    (["is_operating_income_loss"; "is_revenues"], "ratio_operating_margin",
      fun r => cell_div (r !! "is_operating_income_loss") (r !! "is_revenues"));
    (["bs_current_assets"; "bs_current_liabilities"], "ratio_current",
      fun r => cell_div (r !! "bs_current_assets") (r !! "bs_current_liabilities"));
    (["bs_current_assets"; "bs_inventory"; "bs_current_liabilities"], "ratio_quick",
      fun r => cell_div (cell_sub (r !! "bs_current_assets") (r !! "bs_inventory"))
                 (r !! "bs_current_liabilities"));
    (["bs_liabilities"; "bs_equity"], "ratio_debt_to_equity",
      fun r => cell_div (r !! "bs_liabilities") (r !! "bs_equity"));
    (["bs_liabilities"; "bs_assets"], "ratio_debt_to_assets",
      fun r => cell_div (r !! "bs_liabilities") (r !! "bs_assets")) ].

Definition ratio_names : list string := List.map (fun s => s.1.2) ratios.

(** An expression that does not read the ratio columns. *)
Definition reads_sources_only (expr : row -> option value) : Prop :=
  forall r r' : row,
    (forall c, ~ In c ratio_names -> r !! c = r' !! c) -> expr r = expr r'.

(** A float that is an infinity or NaN. *)
Definition not_finite (f : float) : Prop :=
  match Prim2SF f with
  | S754_infinity _ | S754_nan => True
  | _ => False
  end.

Definition is_zero (f : float) : Prop :=
  match Prim2SF f with
  | S754_zero _ => True
  | _ => False
  end.

(** One growth metric of [_calculate_growth_rates]:
    [(col - col.shift(n).over('ticker')) / den(col.shift(n).over('ticker'))],
    added when [col] is a column of [df]. *)
Definition add_growth (df : DataFrame) (col : string) (n : nat)
    (den : option value -> option value) (name : string) (result : DataFrame)
    : DataFrame :=
  if has_column df col
  then
    let prev := shift_over n col "ticker" (rows result) in
    with_series name
      (List.map (fun rp => cell_div (cell_sub (rp.1 !! col) rp.2) (den rp.2))
         (List.combine (rows result) prev))
      result
  else result.

(** [_calculate_growth_rates] *)
Definition _calculate_growth_rates (df : DataFrame) : DataFrame :=
  let result := sort ["ticker"; "filing_date"] df in
  let result := add_growth df "is_revenues" 4 id "growth_revenue_yoy" result in
  let result := add_growth df "is_revenues" 1 id "growth_revenue_qoq" result in
  let result :=
    add_growth df "is_net_income_loss" 4 cell_abs "growth_net_income_yoy" result in
  let result := add_growth df "bs_assets" 4 id "growth_assets_yoy" result in
  result.

(** The growth metrics with the source column and the shift of each. *)
Definition growth_metrics : list (string * string * nat) :=
  [("growth_revenue_yoy", "is_revenues", 4%nat);
   ("growth_revenue_qoq", "is_revenues", 1%nat);
   ("growth_net_income_yoy", "is_net_income_loss", 4%nat);
   ("growth_assets_yoy", "bs_assets", 4%nat)].

(** Number of rows before position [j] that are of the same ticker as the
    row at [j]. *)
Definition prior_periods (rs : list row) (j : nat) : nat :=
  match rs !! j with
  | Some r =>
      List.length
        (List.filter (fun r' => bool_decide (group_key "ticker" r' = group_key "ticker" r))
           (take j rs))
  | None => 0
  end.

(** The growth column [name] is null in every row that has fewer than [n]
    earlier rows of its ticker. *)
Definition null_below (n : nat) (name : string) (rs : list row) : Prop :=
  forall j r, rs !! j = Some r -> (prior_periods rs j < n)%nat -> r !! name = None.

(** [rs'] is [rs] with at most the column [name] changed. *)
Definition same_but (name : string) (rs rs' : list row) : Prop :=
  List.length rs' = List.length rs
  /\ forall j r', rs' !! j = Some r' ->
       exists r, rs !! j = Some r /\ forall c, c <> name -> r' !! c = r !! c.

(** Number of rows of a ticker. *)
Definition periods_of (g : option string) (rs : list row) : nat :=
  List.length (List.filter (fun r => bool_decide (group_key "ticker" r = g)) rs).

(** Five quarters of one ticker and two of another, out of order. *)
Definition quarters : DataFrame :=
  mkDataFrame ["ticker"; "filing_date"; "is_revenues"]
    (List.map
       (fun '(t, d, v) =>
          ({[ "ticker" := VStr t; "filing_date" := VStr d; "is_revenues" := VFloat v ]}
           : row))
       [("MSFT", "2024-04-25", 200%float); ("AAPL", "2023-05-04", 100%float);
        ("AAPL", "2024-05-02", 125%float); ("AAPL", "2023-08-03", 100%float);
        ("MSFT", "2024-01-30", 100%float); ("AAPL", "2024-02-01", 100%float);
        ("AAPL", "2023-11-02", 100%float)]).

(** Three flattened statements of one ticker: balance sheets for the
    periods 1 and 2, income statements for 2 and 3, cash flows for 1 and 3. *)
Definition period_key (k : Z) : row :=
  {[ "ticker" := VStr "AAPL";
     "filing_date" := VDate 2024 (3 * k) 1;
     "fiscal_year" := VInt 2024;
     "fiscal_period" := VInt k ]}.

Definition statement (metric : string) (periods : list Z) : DataFrame :=
  mkDataFrame (key_cols ++ [metric])
    (List.map (fun k => <[metric := VFloat 100]> (period_key k)) periods).

Definition bs_12 : DataFrame := statement "bs_assets" [1; 2].
Definition is_23 : DataFrame := statement "is_revenues" [2; 3].
Definition cf_13 : DataFrame := statement "cf_net_cash_flow" [1; 3].

(** Natural key of a merged row: the four key cells. *)
Definition natural_key (r : row) : list (option value) :=
  List.map (fun c => r !! c) key_cols.

(** Natural keys of the rows merged from the three example statements. *)
Definition merged_keys : list (list (option value)) :=
  match _flatten_ticker (Some bs_12) (Some is_23) (Some cf_13) with
  | Ok (Some merged) => List.map natural_key (rows merged)
  | _ => []
  end.

(** A wide table with a zero equity (rows 1 and 2) and a null one (row 3). *)
Definition zero_equity : DataFrame :=
  mkDataFrame ["ticker"; "is_net_income_loss"; "bs_equity"]
    [ {[ "ticker" := VStr "AAPL"; "is_net_income_loss" := VFloat 1;
         "bs_equity" := VFloat 0 ]};
      {[ "ticker" := VStr "MSFT"; "is_net_income_loss" := VFloat 0;
         "bs_equity" := VFloat 0 ]};
      {[ "ticker" := VStr "IBM"; "is_net_income_loss" := VFloat 1 ]} ].

(** State of the frame after the ratios [done]: each row is the input row
    with the ratios of [done] set and nothing else changed outside the ratio
    columns. *)
Definition ratios_inv (df : DataFrame)
    (done : list (list string * string * (row -> option value)))
    (result : DataFrame) : Prop :=
  List.length (rows result) = List.length (rows df)
  /\ forall j r', rows result !! j = Some r' ->
       exists r, rows df !! j = Some r
         /\ (forall c, ~ In c ratio_names -> r' !! c = r !! c)
         /\ Forall (fun s => forallb (has_column df) s.1.1 = true -> r' !! s.1.2 = s.2 r)
              done.

End Flatten.

(** ** FundamentalsSchemaExtractor *)

Module Schema.

(** A bronze file [.../ticker=<T>.parquet] as the extractor sees it: the
    ticker of its name and, when [pl.read_parquet] succeeds, its columns with
    the text of their dtypes ([None] when reading fails). *)
Record parquet_file : Type := mkFile {
  pf_ticker : string;
  pf_schema : option (list (string * string))
}.

(** [column_stats[statement_type][col_name]] *)
Record col_stats : Type := mkStats {
  count : Z;
  dtypes : gset string
}.

Definition no_stats : col_stats := mkStats 0 ∅.   (* the defaultdict's default *)

(** [schemas[statement_type]] once extracted. *)
Record statement_schema : Type := mkSchema {
  s_columns : list string;
  s_tickers_scanned : Z;
  s_files_scanned : Z
}.

(** The extractor object. A statement type that has no entry in [schemas]
    stands for the empty dictionary it is initialised with. *)
Record extractor : Type := mkExtractor {
  schemas : gmap string statement_schema;
  column_stats : gmap string (gmap string col_stats)
}.

(** [__init__] *)
Definition init : extractor := mkExtractor ∅ ∅.

(** The body of [for col_name, dtype in zip(df.columns, df.dtypes)]. *)
Definition collect_column (acc : gset string * gmap string col_stats)
    (cd : string * string) : gset string * gmap string col_stats :=
  let '(unique_columns, stats) := acc in
  let old := default no_stats (stats !! cd.1) in
  ({[ cd.1 ]} ∪ unique_columns,
   <[cd.1 := mkStats (count old + 1) ({[ cd.2 ]} ∪ dtypes old)]> stats).

(** The body of [for file_path in batch]: the ticker is noted first, then
    the file is read; a file that cannot be read is logged and skipped. *)
Definition scan_file (acc : gset string * gset string * gmap string col_stats)
    (f : parquet_file) : gset string * gset string * gmap string col_stats :=
  let '(unique_columns, tickers_scanned, stats) := acc in
  let tickers_scanned := {[ pf_ticker f ]} ∪ tickers_scanned in
  match pf_schema f with
  | None => (unique_columns, tickers_scanned, stats)
  | Some schema =>
      let '(unique_columns, stats) :=
        foldl collect_column (unique_columns, stats) schema in
      (unique_columns, tickers_scanned, stats)
  end.

(** [_extract_statement_schema]. [all_files] is the list of files scanned
    (after sampling, if any), [None] when the directory does not exist. The
    batches of 100 only pace the progress log. *)
Definition _extract_statement_schema (statement_type : string)
    (all_files : option (list parquet_file)) (self : extractor) : extractor :=
  match all_files with
  | None => self
  | Some all_files =>
      let stats0 := default ∅ (column_stats self !! statement_type) in
      let '(unique_columns, tickers_scanned, stats) :=
        foldl scan_file (∅, ∅, stats0) all_files in
      mkExtractor
        (<[statement_type :=
             mkSchema (sort_by String.ltb (elements unique_columns))
               (Z.of_nat (size tickers_scanned))
               (Z.of_nat (List.length all_files))]> (schemas self))
        (<[statement_type := stats]> (column_stats self))
  end.

(** An entry of [columns_info] ([occurrence_pct], a rounded float, is left
    out). *)
Record column_info : Type := mkInfo {
  name : string;
  occurrence_count : Z;
  info_dtypes : list string;
  primary_dtype : string;
  is_common : bool
}.

Record statement_info : Type := mkStatementInfo {
  total_columns : Z;
  common_columns : Z;
  rare_columns : Z;
  files_scanned : Z;
  tickers_scanned : Z;
  info_columns : list column_info
}.

Definition statement_types : list string :=
  ["balance_sheets"; "income_statements"; "cash_flow"].

(** The entry of one column. [count > files_scanned * 0.5] compares an
    integer with a float that is exact for any number of files below 2^53:
    it is [files_scanned < 2 * count]. *)
Definition make_column_info (files_scanned : Z) (stats : gmap string col_stats)
    (col_name : string) : column_info :=
  let stats := default no_stats (stats !! col_name) in
  let dtypes_list := elements (dtypes stats) in
  let primary_dtype :=
    match dtypes_list with
    | [d] => d
    | _ => "Mixed"
    end in
  mkInfo col_name (count stats) (sort_by String.ltb (elements (dtypes stats)))
    primary_dtype (files_scanned <? 2 * count stats).

(** One turn of the loop of [_generate_unified_schema]; reading
    [schemas[statement_type]['columns']] of a type that was never extracted
    raises [KeyError]. *)
Definition statement_unified (self : extractor) (statement_type : string)
    : result statement_info :=
  match schemas self !! statement_type with
  | None => Raise "KeyError: 'columns'"
  | Some schema =>
      let columns_info :=
        List.map
          (make_column_info (s_files_scanned schema)
             (default ∅ (column_stats self !! statement_type)))
          (s_columns schema) in
      let columns_info :=
        sort_by (fun a b => occurrence_count b <? occurrence_count a) columns_info in
      Ok (mkStatementInfo
            (Z.of_nat (List.length columns_info))
            (Py.count is_common columns_info)
            (Py.count (fun c => negb (is_common c)) columns_info)
            (s_files_scanned schema) (s_tickers_scanned schema) columns_info)
  end.

(** [_generate_unified_schema]: the ['statements'] part, in the order of
    the statement types. *)
Fixpoint unified_statements (self : extractor) (types : list string)
    : result (list (string * statement_info)) :=
  match types with
  | [] => Ok []
  | t :: types' =>
      info ← statement_unified self t;
      rest ← unified_statements self types';
      Ok ((t, info) :: rest)
  end.

Definition _generate_unified_schema (self : extractor)
    : result (list (string * statement_info)) :=
  unified_statements self statement_types.

(** What the bronze layer holds for each statement type. *)
Definition corpus := string -> option (list parquet_file).

(** [extract_all_schemas] on a new extractor. *)
Definition extract_all_schemas (bronze : corpus)
    : result (list (string * statement_info)) :=
  let self :=
    foldl (fun self t => _extract_statement_schema t (bronze t) self) init
      statement_types in
  _generate_unified_schema self.

(** *** Vocabulary of the statements about the schema *)

Definition named (c : string) (cd : string * string) : bool := String.eqb cd.1 c.

(** Number of scanned files that were read and have the column. *)
Definition occurrences (col_name : string) (files : list parquet_file) : Z :=
  Py.count
    (fun f => match pf_schema f with
              | Some schema => existsb (String.eqb col_name) (List.map fst schema)
              | None => false
              end) files.

(** The dtypes seen for the column in the files that were read. *)
Definition observed (col_name : string) (files : list parquet_file) : gset string :=
  list_to_set
    (List.flat_map
       (fun f => List.map snd
                   (List.filter (named col_name)
                      (default [] (pf_schema f)))) files).

(** The column names found in the files that could be read, and the
    tickers of all the files. *)
Definition columns_seen (files : list parquet_file) : gset string :=
  list_to_set
    (List.flat_map (fun f => List.map fst (default [] (pf_schema f))) files).

Definition tickers_seen (files : list parquet_file) : gset string :=
  list_to_set (List.map pf_ticker files).

(** A data frame has no two columns of the same name. *)
Definition distinct_columns (f : parquet_file) : bool :=
  bool_decide (NoDup (List.map fst (default [] (pf_schema f)))).

(** A small bronze layer: three balance sheets (one unreadable), one income
    statement, one cash flow. *)
Definition sample_balance_sheets : list parquet_file :=
  [mkFile "AAPL" (Some [("ticker", "String"); ("assets", "Float64")]);
   mkFile "MSFT" (Some [("ticker", "String"); ("assets", "Int64");
                        ("goodwill", "Float64")]);
   mkFile "IBM" None].

Definition sample_bronze : corpus :=
  fun t =>
    if String.eqb t "balance_sheets" then Some sample_balance_sheets
    else if String.eqb t "income_statements"
         then Some [mkFile "AAPL" (Some [("revenues", "Float64")])]
    else if String.eqb t "cash_flow"
         then Some [mkFile "AAPL" (Some [("net_cash_flow", "Float64")])]
    else None.

End Schema.

(** ** write_partitioned_silver *)

Module Partition.
Import Polars.

(** Files below [silver_path], by path components, with their content. *)
Abbreviation silver := (gmap (list string) DataFrame).

(** Kleene conjunction of two nullable booleans ([&] on expressions). *)
Definition and_kleene (a b : option bool) : option bool :=
  match a, b with
  | Some false, _ | _, Some false => Some false
  | Some true, Some true => Some true
  | _, _ => None
  end.

(** [df.filter(pred)]: the rows whose predicate is true; a null predicate
    drops the row. *)
Definition filter_rows (pred : row -> option bool) (df : DataFrame) : DataFrame :=
  mkDataFrame (columns df)
    (List.filter (fun r => bool_decide (pred r = Some true)) (rows df)).

(** The value of a String column in a row, as [iter_rows] hands it out. *)
Definition str_cell (c : string) (r : row) : option string :=
  match r !! c with
  | Some (VStr s) => Some s
  | _ => None
  end.

(** [df.select(['ticker', 'event_type']).unique()]: the distinct
    combinations, in order of first appearance (both are String columns;
    nulls are values like any other here). *)
Definition partitions (df : DataFrame) : list (option string * option string) :=
  remove_dups (List.map (fun r => (str_cell "ticker" r, str_cell "event_type" r)) (rows df)).

(** [f"{x}"] for a value read from a row. *)
Definition fmt (x : option string) : string := default "None" x.

(** Calendar fields of a Date cell. *)
Definition dt_year (c : option value) : option value :=
  match c with Some (VDate y _ _) => Some (VInt y) | _ => None end.
Definition dt_month (c : option value) : option value :=
  match c with Some (VDate _ m _) => Some (VInt m) | _ => None end.
Definition dt_quarter (c : option value) : option value :=
  match c with Some (VDate _ m _) => Some (VInt ((m - 1) / 3 + 1)) | _ => None end.

(** The frame written for one combination: filter, sort by event date
    descending, attach the processing columns. [now] is the reading of
    [datetime.now()]. A null [ticker] or [event_type] read from the row makes
    the comparison null, as [pl.col(c) == None] is. *)
Definition partition_frame (now : string) (ticker event_type : option string)
    (df : DataFrame) : DataFrame :=
  let partition_df :=
    filter_rows
      (fun r => and_kleene (cell_eq (r !! "ticker") (VStr <$> ticker))
                           (cell_eq (r !! "event_type") (VStr <$> event_type)))
      df in
  let partition_df := sort_descending "event_date" partition_df in
  let partition_df := with_column "processed_at" (fun _ => Some (VStr now)) partition_df in
  let partition_df :=
    with_column "year" (fun r => dt_year (r !! "event_date")) partition_df in
  let partition_df :=
    with_column "quarter" (fun r => dt_quarter (r !! "event_date")) partition_df in
  with_column "month" (fun r => dt_month (r !! "event_date")) partition_df.

Definition partition_path (ticker event_type : option string) : list string :=
  ["ticker=" +:+ fmt ticker; "event_type=" +:+ fmt event_type; "data.parquet"].

Record write_stats : Type := mkWriteStats {
  tickers_written : Z;
  files_written : Z;
  total_records : Z
}.

(** The loop over the combinations; [now i] is the clock reading of the
    [i]-th turn. *)
Fixpoint write_partitions (now : nat -> string) (df : DataFrame) (i : nat)
    (parts : list (option string * option string)) (fs : silver) (written : Z)
    : silver * Z :=
  match parts with
  | [] => (fs, written)
  | (ticker, event_type) :: parts' =>
      let partition_df := partition_frame (now i) ticker event_type df in
      write_partitions now df (S i) parts'
        (<[partition_path ticker event_type := partition_df]> fs) (written + 1)
  end.

(** [write_partitioned_silver] *)
Definition write_partitioned_silver (now : nat -> string) (df : DataFrame)
    (fs : silver) : write_stats * silver :=
  let '(fs', written) := write_partitions now df 0 (partitions df) fs 0 in
  (mkWriteStats
     (Z.of_nat (List.length (remove_dups (List.map (str_cell "ticker") (rows df)))))
     written (Z.of_nat (height df)),
   fs').

(** The rows of the partition (ticker, event_type). *)
Definition in_partition (ticker event_type : string) (r : row) : bool :=
  bool_decide (str_cell "ticker" r = Some ticker)
  && bool_decide (str_cell "event_type" r = Some event_type).

(** The processing columns attached to a row, as [partition_frame] does. *)
Definition attach (now : string) (r : row) : row :=
  let r := set_cell "processed_at" (Some (VStr now)) r in
  let r := set_cell "year" (dt_year (r !! "event_date")) r in
  let r := set_cell "quarter" (dt_quarter (r !! "event_date")) r in
  set_cell "month" (dt_month (r !! "event_date")) r.

(** Rows in descending order of event date, nulls first. *)
Definition by_event_date_desc (a b : row) : bool :=
  cell_gtb_nulls_first (a !! "event_date") (b !! "event_date").

(** Corporate actions with one row whose ticker is null. *)
Definition actions_with_null_ticker : DataFrame :=
  mkDataFrame ["ticker"; "event_type"; "event_date"]
    [ {[ "ticker" := VStr "AAPL"; "event_type" := VStr "dividend";
         "event_date" := VDate 2024 2 9 ]};
      {[ "event_type" := VStr "dividend"; "event_date" := VDate 2024 3 1 ]};
      {[ "ticker" := VStr "AAPL"; "event_type" := VStr "dividend";
         "event_date" := VDate 2024 5 10 ]} ].

Definition clock (i : nat) : string := "2024-06-01T00:00:00".

(** Number of rows found in the files of a silver directory. *)
Definition rows_on_disk (fs : silver) : nat :=
  List.fold_right (fun pf n => (height pf.2 + n)%nat) 0%nat (map_to_list fs).

End Partition.

(** ** Order of strings and of sorted lists *)

Module StringFacts.

Lemma ltb_lt (a b : string) : String.ltb a b = true <-> String_as_OT.lt a b.
Proof.
  unfold String.ltb. rewrite <- String_as_OT.cmp_lt. unfold String_as_OT.cmp.
  destruct (String.compare a b); split; intros H; try reflexivity; discriminate.
Qed.

Lemma ltb_trans (a b c : string) :
  String.ltb a b = true -> String.ltb b c = true -> String.ltb a c = true.
Proof. rewrite !ltb_lt. apply String_as_OT.lt_trans. Qed.

Lemma ltb_irrefl (a : string) : String.ltb a a = false.
Proof.
  destruct (String.ltb a a) eqn:E; [|reflexivity].
  apply ltb_lt in E. exfalso. exact (String_as_OT.lt_not_eq _ _ E eq_refl).
Qed.

Lemma ltb_asym (a b : string) : String.ltb a b = true -> String.ltb b a = false.
Proof.
  intros H. destruct (String.ltb b a) eqn:E; [|reflexivity].
  rewrite <- (ltb_irrefl a). symmetry. eapply ltb_trans; eassumption.
Qed.

Lemma leb_ltb (a b : string) : String.leb a b = negb (String.ltb b a).
Proof.
  unfold String.leb, String.ltb. rewrite (String.compare_antisym b a).
  destruct (String.compare a b); reflexivity.
Qed.

Lemma ltb_false_cases (a b : string) :
  String.ltb a b = false -> a = b \/ String.ltb b a = true.
Proof.
  unfold String.ltb. rewrite (String.compare_antisym b a).
  destruct (String.compare a b) eqn:E; cbn; intros H.
  - left. apply String.compare_eq_iff. exact E.
  - discriminate.
  - right. reflexivity.
Qed.

(** [b <= a] and [c <= b] give [c <= a], with [x <= y] read as
    [ltb y x = false]. *)
Lemma not_ltb_trans (a b c : string) :
  String.ltb a b = false -> String.ltb b c = false -> String.ltb a c = false.
Proof.
  intros Hab Hbc. destruct (String.ltb a c) eqn:Hac; [|reflexivity].
  destruct (ltb_false_cases _ _ Hbc) as [->|Hcb]; [congruence|].
  rewrite (ltb_trans _ _ _ Hac Hcb) in Hab. discriminate.
Qed.

Lemma length_append (a b : string) :
  String.length (a +:+ b) = (String.length a + String.length b)%nat.
Proof.
  induction a as [|c a IH]; [reflexivity|].
  change (S (String.length (a +:+ b)) = S (String.length a + String.length b)).
  rewrite IH. reflexivity.
Qed.

Lemma append_assoc (a b c : string) : (a +:+ b) +:+ c = a +:+ (b +:+ c).
Proof.
  induction a as [|x a IH]; [reflexivity|].
  change (String x ((a +:+ b) +:+ c) = String x (a +:+ (b +:+ c))).
  rewrite IH. reflexivity.
Qed.

Lemma substring_whole (s : string) : substring 0 (String.length s) s = s.
Proof.
  induction s as [|c s IH]; [reflexivity|].
  change (String c (substring 0 (String.length s) s) = String c s).
  rewrite IH. reflexivity.
Qed.

Lemma substring_skip (a b : string) (m : nat) :
  substring (String.length a) m (a +:+ b) = substring 0 m b.
Proof. induction a as [|c a IH]; [reflexivity|]. exact IH. Qed.

Lemma endswith_append (a suf : string) : endswith (a +:+ suf) suf = true.
Proof.
  unfold endswith. rewrite length_append.
  replace (String.length a + String.length suf - String.length suf)%nat
    with (String.length a) by lia.
  rewrite substring_skip, substring_whole, String.eqb_refl, andb_true_r.
  apply Nat.leb_le. lia.
Qed.

Lemma append_nonempty_r (a b : string) : b <> "" -> a +:+ b <> "".
Proof. destruct a; cbn; [auto|discriminate]. Qed.

Lemma append_inj_l (a b suf : string) : a +:+ suf = b +:+ suf -> a = b.
Proof.
  revert b. induction a as [|x a IH]; intros [|y b] H.
  - reflexivity.
  - exfalso. assert (E := f_equal String.length H).
    change (String.length suf = S (String.length (b +:+ suf))) in E.
    rewrite length_append in E. lia.
  - exfalso. assert (E := f_equal String.length H).
    change (S (String.length (a +:+ suf)) = String.length suf) in E.
    rewrite length_append in E. lia.
  - change (String x (a +:+ suf) = String y (b +:+ suf)) in H.
    injection H as -> H. f_equal. apply IH. exact H.
Qed.

End StringFacts.

Module ListFacts.

Lemma insert_sorted_perm {A} (lt : A -> A -> bool) (x : A) (l : list A) :
  Permutation (insert_sorted lt x l) (x :: l).
Proof.
  induction l as [|y l IH]; cbn; [reflexivity|].
  destruct (lt y x); [|reflexivity].
  rewrite IH. apply perm_swap.
Qed.

Lemma sort_by_perm {A} (lt : A -> A -> bool) (l : list A) :
  Permutation (sort_by lt l) l.
Proof.
  induction l as [|x l IH]; cbn; [reflexivity|].
  rewrite insert_sorted_perm. constructor. exact IH.
Qed.

(** [max_by] returns an element of the list that no element exceeds, when
    "not smaller" is transitive. *)
Lemma max_by_spec {A} (lt : A -> A -> bool)
    (Htrans : forall a b c, lt a b = false -> lt b c = false -> lt a c = false)
    (Hasym : forall a b, lt a b = true -> lt b a = false)
    (l : list A) :
  forall best,
    In (max_by lt best l) (best :: l)
    /\ forall x, In x (best :: l) -> lt (max_by lt best l) x = false.
Proof.
  induction l as [|y l IH]; intros best; cbn [max_by].
  - split; [left; reflexivity|]. intros x [<-|[]].
    destruct (lt best best) eqn:E; [|reflexivity].
    rewrite (Hasym _ _ E) in E. discriminate.
  - destruct (IH (if lt best y then y else best)) as [Hin Hmax]. split.
    + destruct Hin as [Hin|Hin]; [|right; right; exact Hin].
      rewrite <- Hin. destruct (lt best y); [right; left|left]; reflexivity.
    + intros x [<-|[<-|Hx]].
      * destruct (lt best y) eqn:E.
        -- apply (Htrans _ y); [apply Hmax; left; reflexivity|]. apply Hasym; exact E.
        -- apply Hmax. left. reflexivity.
      * destruct (lt best y) eqn:E.
        -- apply Hmax. left. reflexivity.
        -- apply (Htrans _ best); [apply Hmax; left; reflexivity|exact E].
      * apply Hmax. right. exact Hx.
Qed.

Lemma filter_all {A} (p : A -> bool) (l : list A) :
  (forall x, In x l -> p x = true) -> List.filter p l = l.
Proof.
  induction l as [|x l IH]; cbn; intros H; [reflexivity|].
  rewrite (H x (or_introl eq_refl)), IH; [reflexivity|]. intros y Hy. apply H. right; exact Hy.
Qed.

End ListFacts.
(** ** Facts about the ledger and its summary *)

Module MetadataFacts.
Import Metadata.

Lemma last_cons_default {A} (l : list A) :
  forall x d, List.last (x :: l) d = List.last l x.
Proof.
  induction l as [|y l IH]; intros x d; [reflexivity|].
  change (List.last (x :: y :: l) d) with (List.last (y :: l) d).
  rewrite (IH y d), (IH y x). reflexivity.
Qed.

Lemma record_attempts_lookup (data_type date : string) (symbol : option string)
    (layer : string) (l : list attempt) :
  forall (fs : FS) (a0 : attempt),
    foldl (record_attempt data_type date symbol layer) fs (a0 :: l)
      !! _get_metadata_file data_type date symbol layer
    = Some (LedgerFile (attempt_record data_type date symbol layer (List.last l a0))).
Proof.
  induction l as [|a1 l IH]; intros fs a0.
  - cbn [foldl List.last]. unfold record_attempt, record_ingestion.
    apply lookup_insert_eq.
  - change (foldl _ fs (a0 :: a1 :: l))
      with (foldl (record_attempt data_type date symbol layer)
              (record_attempt data_type date symbol layer fs a0) (a1 :: l)).
    rewrite IH, (last_cons_default l a1 a0). reflexivity.
Qed.

Lemma record_attempts_frame (data_type date : string) (symbol : option string)
    (layer : string) (l : list attempt) :
  forall (fs : FS) (p : list string),
    p <> _get_metadata_file data_type date symbol layer ->
    foldl (record_attempt data_type date symbol layer) fs l !! p = fs !! p.
Proof.
  induction l as [|a l IH]; intros fs p Hp; [reflexivity|].
  cbn [foldl]. rewrite IH by assumption.
  unfold record_attempt, record_ingestion. apply lookup_insert_ne. congruence.
Qed.

Lemma sum_stats_numeric (l : list stat) :
  forallb is_num l = true -> exists q, sum_stats l = Ok q.
Proof.
  induction l as [|[q|s] l IH]; cbn; intros H.
  - eauto.
  - destruct (IH H) as [t ->]. eauto.
  - discriminate.
Qed.

Lemma summable_records_num (r : record) :
  summable r = true ->
  is_num (default (default (default (SNum 0) (r_statistics r !! "records_enriched"))
                     (r_statistics r !! "symbols_converted"))
            (r_statistics r !! "records")) = true.
Proof.
  unfold summable. cbn [forallb].
  destruct (r_statistics r !! "records") as [[|]|];
    destruct (r_statistics r !! "symbols_converted") as [[|]|];
    destruct (r_statistics r !! "records_enriched") as [[|]|];
    cbn; intros H; try reflexivity; discriminate.
Qed.

Lemma summable_size_num (r : record) :
  summable r = true ->
  is_num (default (SNum 0) (r_statistics r !! "file_size_mb")) = true.
Proof.
  unfold summable. cbn [forallb].
  destruct (r_statistics r !! "file_size_mb") as [[|]|]; cbn; intros H;
    try reflexivity.
  rewrite !andb_false_r in H. discriminate.
Qed.

Lemma forallb_map_filter {A B} (f : A -> B) (p : B -> bool) (g : A -> bool) (l : list A) :
  (forall a, In a l -> p (f a) = true) ->
  forallb p (List.map f (List.filter g l)) = true.
Proof.
  intros H. apply forallb_forall. intros b Hb.
  apply in_map_iff in Hb as (a & <- & Ha). apply filter_In in Ha as [Ha _]. auto.
Qed.

(** The summary of a non-empty list of matched records, once the sums are
    known to succeed. *)
Lemma summary_nonempty (data_type : string) (start_date end_date layer : option string)
    (fs : FS) (first : record) (rest : list record) :
  list_ingestions data_type start_date end_date None layer fs = Ok (first :: rest) ->
  forallb summable (first :: rest) = true ->
  exists total_records total_size_mb,
    get_statistics_summary data_type start_date end_date layer fs =
    Ok [("data_type", PStr data_type);
        ("date_range",
          PRange (if truthy start_date then default "" start_date else r_date first)
                 (if truthy end_date then default "" end_date
                  else r_date (List.last (first :: rest) first)));
        ("total_jobs", PInt (Z.of_nat (List.length (first :: rest))));
        ("success", PInt (count (status_is "success") (first :: rest)));
        ("failed", PInt (count (status_is "failed") (first :: rest)));
        ("skipped", PInt (count (status_is "skipped") (first :: rest)));
        ("success_rate",
          PNum (Qred (inject_Z (count (status_is "success") (first :: rest)
                                + count (status_is "skipped") (first :: rest))
                      / inject_Z (Z.of_nat (List.length (first :: rest))))));
        ("total_records", PNum total_records);
        ("total_size_mb", PNum total_size_mb)].
Proof.
  intros Hlist Hsum. unfold get_statistics_summary. rewrite Hlist.
  assert (Hall : forall r, In r (first :: rest) -> summable r = true)
    by (apply forallb_forall; exact Hsum).
  edestruct (sum_stats_numeric
               (List.map
                  (fun r => default
                     (default (default (SNum 0) (r_statistics r !! "records_enriched"))
                        (r_statistics r !! "symbols_converted"))
                     (r_statistics r !! "records"))
                  (List.filter (status_is "success") (first :: rest)))) as [tr Htr].
  { apply forallb_map_filter. intros r Hr. apply summable_records_num; auto. }
  edestruct (sum_stats_numeric
               (List.map (fun r => default (SNum 0) (r_statistics r !! "file_size_mb"))
                  (List.filter (status_is "success") (first :: rest)))) as [ts Hts].
  { apply forallb_map_filter. intros r Hr. apply summable_size_num; auto. }
  exists tr, ts. rewrite Htr, Hts.
  replace (0 <? Z.of_nat (List.length (first :: rest))) with true
    by (symmetry; apply Z.ltb_lt; cbn [List.length]; lia).
  reflexivity.
Qed.


(** Whenever a summary of a non-empty list of matched records is returned,
    it is that dictionary. *)
Lemma summary_returned (data_type : string) (start_date end_date layer : option string)
    (fs : FS) (first : record) (rest : list record) (d : list (string * pyval)) :
  list_ingestions data_type start_date end_date None layer fs = Ok (first :: rest) ->
  get_statistics_summary data_type start_date end_date layer fs = Ok d ->
  exists total_records total_size_mb,
    d = [("data_type", PStr data_type);
         ("date_range",
           PRange (if truthy start_date then default "" start_date else r_date first)
                  (if truthy end_date then default "" end_date
                   else r_date (List.last (first :: rest) first)));
         ("total_jobs", PInt (Z.of_nat (List.length (first :: rest))));
         ("success", PInt (count (status_is "success") (first :: rest)));
         ("failed", PInt (count (status_is "failed") (first :: rest)));
         ("skipped", PInt (count (status_is "skipped") (first :: rest)));
         ("success_rate",
           PNum (Qred (inject_Z (count (status_is "success") (first :: rest)
                                 + count (status_is "skipped") (first :: rest))
                       / inject_Z (Z.of_nat (List.length (first :: rest))))));
         ("total_records", PNum total_records);
         ("total_size_mb", PNum total_size_mb)].
Proof.
  intros Hlist. unfold get_statistics_summary. rewrite Hlist.
  destruct (sum_stats _) as [tr|]; [|discriminate].
  destruct (sum_stats _) as [ts|]; [|discriminate].
  replace (0 <? Z.of_nat (List.length (first :: rest))) with true
    by (symmetry; apply Z.ltb_lt; cbn [List.length]; lia).
  intros [= <-]. exists tr, ts. reflexivity.
Qed.

(** C3 (as stated, refuted): two attempts for the partition key
    (stocks_daily, 2024-01-02, no symbol, bronze) leave one ledger entry, not
    two: the entry of the first attempt has been replaced by the second. *)
Lemma record_ingestion_retry_replaces :
  ledger_entries retry_store =
    [mkRecord "stocks_daily" "2024-01-02" None "success" "bronze" "t2" ∅ None]
  /\ ~ In (mkRecord "stocks_daily" "2024-01-02" None "failed" "bronze" "t1" ∅ (Some "boom"))
         (ledger_entries retry_store)
  /\ List.length (ledger_entries retry_store) <> 2%nat.
Proof.
  assert (E : ledger_entries retry_store =
    [mkRecord "stocks_daily" "2024-01-02" None "success" "bronze" "t2" ∅ None])
    by (vm_compute; reflexivity).
  rewrite E. split; [reflexivity|]. split.
  - intros [H|[]]. discriminate H.
  - cbn. lia.
Qed.

(** C3 (amended): the ledger keeps one entry per partition key. After any
    number k >= 1 of [record_ingestion] calls for the same
    (data_type, date, symbol, layer), the file of that key holds the record of
    the last call, and every other file of the store is as it was. *)
Theorem record_ingestion_keeps_latest (data_type date : string)
    (symbol : option string) (layer : string) (fs : FS)
    (a0 : attempt) (l : list attempt) :
  let fs' := foldl (record_attempt data_type date symbol layer) fs (a0 :: l) in
  fs' !! _get_metadata_file data_type date symbol layer
    = Some (LedgerFile (attempt_record data_type date symbol layer (List.last l a0)))
  /\ forall p : list string,
       p <> _get_metadata_file data_type date symbol layer -> fs' !! p = fs !! p.
Proof.
  intros fs'. split.
  - apply record_attempts_lookup.
  - intros p Hp. apply record_attempts_frame. exact Hp.
Qed.

Lemma record_ingestion_keeps_latest_witness :
  retry_store !! ["bronze"; "stocks_daily"; "2024"; "01"; "2024-01-02.json"]
    = Some (LedgerFile
              (mkRecord "stocks_daily" "2024-01-02" None "success" "bronze" "t2" ∅ None))
  /\ retry_store !! ["bronze"; "stocks_daily"; "watermark.json"] = None.
Proof.
  pose proof (record_ingestion_keeps_latest "stocks_daily" "2024-01-02" None "bronze" ∅
                (mkAttempt "failed" ∅ (Some "boom") "t1")
                [mkAttempt "success" ∅ None "t2"]) as [H1 H2].
  split.
  - exact H1.
  - refine (eq_trans (H2 ["bronze"; "stocks_daily"; "watermark.json"] _) _).
    + vm_compute. discriminate.
    + reflexivity.
Defined.

(** C6: for every non-empty list of matched ledger records, the summary
    that [get_statistics_summary] returns has
    success_rate = (success + skipped) / total; and it does return one when
    the summed statistics are numbers. *)
Theorem success_rate_counts_skipped (data_type : string)
    (start_date end_date layer : option string) (fs : FS) (records : list record) :
  list_ingestions data_type start_date end_date None layer fs = Ok records ->
  records <> [] ->
  (forall d,
     get_statistics_summary data_type start_date end_date layer fs = Ok d ->
     exists q,
       dict_get d "success_rate" = Some (PNum q)
       /\ (q == inject_Z (count (status_is "success") records
                          + count (status_is "skipped") records)
               / inject_Z (Z.of_nat (List.length records)))%Q)
  /\ (forallb summable records = true ->
      exists d, get_statistics_summary data_type start_date end_date layer fs = Ok d).
Proof.
  intros Hlist Hne. destruct records as [|first rest]; [congruence|]. split.
  - intros d Hd. destruct (summary_returned _ _ _ _ _ _ _ _ Hlist Hd) as (tr & ts & ->).
    eexists. split; [reflexivity|]. apply Qred_correct.
  - intros Hsum. destruct (summary_nonempty _ _ _ _ _ _ _ Hlist Hsum) as (tr & ts & ->).
    eexists. reflexivity.
Qed.

Lemma success_rate_counts_skipped_witness :
  exists d, get_statistics_summary "stocks_daily" None None (Some "bronze") eight_two_store
            = Ok d
    /\ dict_get d "success" = Some (PInt 8)
    /\ dict_get d "skipped" = Some (PInt 2)
    /\ dict_get d "total_jobs" = Some (PInt 10)
    /\ exists q, dict_get d "success_rate" = Some (PNum q) /\ (q == 1)%Q.
Proof.
  destruct (list_ingestions "stocks_daily" None None None (Some "bronze") eight_two_store)
    as [records|msg] eqn:Hlist; [|vm_compute in Hlist; discriminate Hlist].
  assert (Hrec : List.length records = 10%nat
                 /\ count (status_is "success") records = 8
                 /\ count (status_is "skipped") records = 2
                 /\ forallb summable records = true).
  { vm_compute in Hlist. injection Hlist as <-. vm_compute. auto. }
  destruct Hrec as (Hlen & Hs & Hk & Hsum).
  assert (Hne : records <> []) by (intros ->; discriminate Hlen).
  destruct (success_rate_counts_skipped _ _ _ _ _ _ Hlist Hne) as [Hrate Hret].
  destruct (Hret Hsum) as [d Hd]. destruct (Hrate d Hd) as (q & Hq & Hv).
  exists d. split; [exact Hd|].
  assert (Hd' := Hd). vm_compute in Hd'. injection Hd' as <-.
  repeat split; try reflexivity.
  exists q. split; [exact Hq|]. rewrite Hv, Hs, Hk, Hlen. reflexivity.
Defined.

(** C10: when [get_statistics_summary] matches no ledger record it returns
    only [data_type], [total_jobs], [success], [failed] and [skipped], all
    counts 0, with no [success_rate], [date_range], [total_records] or
    [total_size_mb]; when it matches at least one record, the summary it
    returns has all nine keys (and it returns one when the summed statistics
    are numbers). *)
Theorem summary_empty_has_no_rate (data_type : string)
    (start_date end_date layer : option string) (fs : FS) :
  (list_ingestions data_type start_date end_date None layer fs = Ok [] ->
   get_statistics_summary data_type start_date end_date layer fs =
     Ok [("data_type", PStr data_type); ("total_jobs", PInt 0);
         ("success", PInt 0); ("failed", PInt 0); ("skipped", PInt 0)]
   /\ forall d, get_statistics_summary data_type start_date end_date layer fs = Ok d ->
        dict_get d "success_rate" = None /\ dict_get d "date_range" = None
        /\ dict_get d "total_records" = None /\ dict_get d "total_size_mb" = None)
  /\ (forall records,
        list_ingestions data_type start_date end_date None layer fs = Ok records ->
        records <> [] ->
        (forall d,
           get_statistics_summary data_type start_date end_date layer fs = Ok d ->
           dict_keys d =
             ["data_type"; "date_range"; "total_jobs"; "success"; "failed";
              "skipped"; "success_rate"; "total_records"; "total_size_mb"])
        /\ (forallb summable records = true ->
            exists d,
              get_statistics_summary data_type start_date end_date layer fs = Ok d)).
Proof.
  split.
  - intros Hlist. unfold get_statistics_summary. rewrite Hlist.
    split; [reflexivity|]. intros d [= <-]. repeat split; reflexivity.
  - intros records Hlist Hne. destruct records as [|first rest]; [congruence|]. split.
    + intros d Hd.
      destruct (summary_returned _ _ _ _ _ _ _ _ Hlist Hd) as (tr & ts & ->). reflexivity.
    + intros Hsum. destruct (summary_nonempty _ _ _ _ _ _ _ Hlist Hsum) as (tr & ts & ->).
      eexists. reflexivity.
Qed.

Lemma summary_empty_has_no_rate_witness :
  get_statistics_summary "stocks_daily" None None (Some "bronze") ∅ =
    Ok [("data_type", PStr "stocks_daily"); ("total_jobs", PInt 0);
        ("success", PInt 0); ("failed", PInt 0); ("skipped", PInt 0)]
  /\ exists d,
       get_statistics_summary "stocks_daily" None None (Some "bronze") eight_two_store = Ok d
       /\ dict_keys d =
            ["data_type"; "date_range"; "total_jobs"; "success"; "failed";
             "skipped"; "success_rate"; "total_records"; "total_size_mb"].
Proof.
  split.
  - apply (summary_empty_has_no_rate "stocks_daily" None None (Some "bronze") ∅).
    vm_compute. reflexivity.
  - destruct (list_ingestions "stocks_daily" None None None (Some "bronze") eight_two_store)
      as [records|msg] eqn:Hlist; [|vm_compute in Hlist; discriminate Hlist].
    destruct (proj2 (summary_empty_has_no_rate "stocks_daily" None None (Some "bronze")
                       eight_two_store) records Hlist) as [Hkeys Hret].
    + vm_compute in Hlist. injection Hlist as <-. discriminate.
    + destruct Hret as [d Hd].
      * vm_compute in Hlist. injection Hlist as <-. vm_compute. reflexivity.
      * exists d. split; [exact Hd|]. apply Hkeys. exact Hd.
Defined.

End MetadataFacts.

(** ** The watermark is read from the ledger *)

Module WatermarkFacts.
Import Metadata StringFacts ListFacts.

Lemma joinpath_prefix (p : path) (c : string) : p `prefix_of` joinpath p c.
Proof.
  unfold joinpath. destruct (String.eqb c ""); [reflexivity|].
  apply prefix_app_r. reflexivity.
Qed.

Lemma joinpath_length (p : path) (c : string) :
  (List.length p <= List.length (joinpath p c))%nat.
Proof.
  unfold joinpath. destruct (String.eqb c ""); [lia|].
  rewrite length_app. cbn. lia.
Qed.

Lemma joinpath_nonempty (p : path) (c : string) :
  c <> "" -> joinpath p c = p ++ [c].
Proof.
  intros H. unfold joinpath. apply String.eqb_neq in H. rewrite H. reflexivity.
Qed.

Lemma metadata_file_name_nonempty (date : string) (symbol : option string) :
  metadata_file_name date symbol <> "".
Proof.
  unfold metadata_file_name. destruct (truthy symbol).
  - apply append_nonempty_r, append_nonempty_r, append_nonempty_r. discriminate.
  - apply append_nonempty_r. discriminate.
Qed.

Lemma watermark_file_name_nonempty (symbol : option string) :
  watermark_file_name symbol <> "".
Proof. unfold watermark_file_name. destruct (truthy symbol); discriminate. Qed.

Lemma last_metadata_file (data_type date : string) (symbol : option string)
    (layer : string) :
  List.last (_get_metadata_file data_type date symbol layer) ""
  = metadata_file_name date symbol.
Proof.
  unfold _get_metadata_file.
  rewrite (joinpath_nonempty _ _ (metadata_file_name_nonempty date symbol)).
  apply last_last.
Qed.

Lemma last_watermark_file (data_type : string) (symbol : option string)
    (layer : string) :
  List.last (_get_watermark_file data_type symbol layer) ""
  = watermark_file_name symbol.
Proof.
  unfold _get_watermark_file.
  rewrite (joinpath_nonempty _ _ (watermark_file_name_nonempty symbol)).
  apply last_last.
Qed.

Lemma watermark_file_name_contains (symbol : option string) :
  contains "watermark" (watermark_file_name symbol) = true.
Proof. unfold watermark_file_name. destruct (truthy symbol); reflexivity. Qed.

Lemma metadata_file_name_endswith (date : string) (symbol : option string) :
  endswith (metadata_file_name date symbol) ".json" = true.
Proof.
  unfold metadata_file_name. destruct (truthy symbol).
  - rewrite <- !append_assoc. apply endswith_append.
  - apply endswith_append.
Qed.

Lemma metadata_file_name_inj (d d' : string) (symbol : option string) :
  metadata_file_name d symbol = metadata_file_name d' symbol -> d = d'.
Proof.
  unfold metadata_file_name. destruct (truthy symbol); apply append_inj_l.
Qed.

Lemma metadata_file_inj (data_type d d' : string) (symbol : option string)
    (layer : string) :
  _get_metadata_file data_type d symbol layer
  = _get_metadata_file data_type d' symbol layer -> d = d'.
Proof.
  intros H. apply (f_equal (fun p => List.last p "")) in H.
  rewrite !last_metadata_file in H. eapply metadata_file_name_inj, H.
Qed.

Lemma metadata_file_under (data_type date : string) (symbol : option string)
    (layer : string) :
  let dir := joinpath (joinpath [] layer) data_type in
  dir `prefix_of` _get_metadata_file data_type date symbol layer
  /\ (List.length dir < List.length (_get_metadata_file data_type date symbol layer))%nat.
Proof.
  intros dir. unfold _get_metadata_file. fold dir.
  rewrite (joinpath_nonempty _ _ (metadata_file_name_nonempty date symbol)).
  split.
  - apply prefix_app_r.
    etrans; [apply (joinpath_prefix dir (substring 0 4 date))|apply joinpath_prefix].
  - rewrite length_app. cbn.
    pose proof (joinpath_length dir (substring 0 4 date)).
    pose proof (joinpath_length (joinpath dir (substring 0 4 date)) (substring 5 2 date)).
    lia.
Qed.

(** What [list_ingestions] reads below one directory. *)
Lemma in_listed (dir : path) (fs : FS) (start_date end_date status : option string)
    (r : record) :
  In r (omap (keep_record start_date end_date status) (rglob_json dir fs)) <->
  exists p f,
    fs !! p = Some f
    /\ dir `prefix_of` p
    /\ (List.length dir < List.length p)%nat
    /\ endswith (List.last p "") ".json" = true
    /\ keep_record start_date end_date status (p, f) = Some r.
Proof.
  rewrite <- list_elem_of_In, list_elem_of_omap. unfold rglob_json. split.
  - intros ([p f] & Hin & Hkeep).
    apply list_elem_of_In, filter_In in Hin as [Hin Hf].
    apply list_elem_of_In, elem_of_map_to_list in Hin.
    cbn [fst] in Hf. apply andb_prop in Hf as [Hf He]. apply andb_prop in Hf as [Hp Hl].
    exists p, f. repeat split; auto.
    + apply bool_decide_eq_true in Hp. exact Hp.
    + apply Nat.ltb_lt. exact Hl.
  - intros (p & f & Hfs & Hp & Hl & He & Hkeep). exists (p, f). split; [|exact Hkeep].
    apply list_elem_of_In, filter_In. split.
    + apply list_elem_of_In, elem_of_map_to_list. exact Hfs.
    + cbn [fst]. rewrite He, andb_true_r. apply andb_true_intro. split.
      * apply bool_decide_eq_true. exact Hp.
      * apply Nat.ltb_lt. exact Hl.
Qed.

(** [set_watermark] writes a file that [list_ingestions] never reads. *)
Lemma set_watermark_not_listed (dir : path) (fs : FS)
    (start_date end_date status : option string)
    (data_type date : string) (symbol : option string) (layer now : string) (r : record) :
  In r (omap (keep_record start_date end_date status)
          (rglob_json dir (set_watermark data_type date symbol layer now fs))) ->
  In r (omap (keep_record start_date end_date status) (rglob_json dir fs)).
Proof.
  rewrite !in_listed. intros (p & f & Hfs & Hrest). exists p, f. split; [|exact Hrest].
  unfold set_watermark in Hfs.
  destruct (decide (_get_watermark_file data_type symbol layer = p)) as [<-|Hne];
    [|rewrite lookup_insert_ne in Hfs by exact Hne; exact Hfs].
  exfalso. destruct Hrest as (_ & _ & _ & Hkeep). unfold keep_record in Hkeep.
  cbn [fst] in Hkeep.
  rewrite last_watermark_file, watermark_file_name_contains in Hkeep. discriminate.
Qed.

Section Run.

Variables (data_type : string) (symbol : option string) (layer : string).

Lemma ledger_inv_empty : ledger_inv data_type symbol layer ∅ [].
Proof.
  split; [|split].
  - intros p r H. rewrite lookup_empty in H. discriminate.
  - intros p w H. rewrite lookup_empty in H. discriminate.
  - intros d [].
Qed.

Lemma in_others (seen : list string) (d d0 : string) :
  In d0 (List.filter (fun x => negb (String.eqb x d)) seen) <-> In d0 seen /\ d0 <> d.
Proof.
  rewrite filter_In, negb_true_iff, String.eqb_neq. reflexivity.
Qed.

Lemma ledger_inv_step (fs : FS) (seen : list string) (c : call) :
  ledger_inv data_type symbol layer fs seen ->
  call_ok data_type symbol layer c = true ->
  ledger_inv data_type symbol layer (run_call fs c) (standing seen c).
Proof.
  intros (Hled & Hwm & Hseen) Hok.
  destruct c as [dt' d st stats sym' err layer' now | dt' d sym' layer' now].
  - cbn [call_ok] in Hok.
    apply andb_prop in Hok as [Hok _]. apply andb_prop in Hok as [Hok Hname].
    apply andb_prop in Hok as [Hok Hlayer]. apply andb_prop in Hok as [Hdt Hsym].
    apply String.eqb_eq in Hdt, Hlayer. apply bool_decide_eq_true in Hsym.
    apply negb_true_iff in Hname. subst dt' sym' layer'.
    cbn [run_call standing]. unfold record_ingestion.
    set (r0 := mkRecord data_type d symbol st layer now stats err).
    assert (Hd : forall d0, In d0 (if String.eqb st "success"
                                   then List.filter (fun x => negb (String.eqb x d)) seen
                                        ++ [d]
                                   else List.filter (fun x => negb (String.eqb x d)) seen)
                 <-> (In d0 seen /\ d0 <> d) \/ (d0 = d /\ st = "success")).
    { intros d0. destruct (String.eqb_spec st "success") as [->|Hst].
      - rewrite in_app_iff, in_others. cbn. intuition.
      - rewrite in_others. intuition. }
    split; [|split].
    + intros p r H.
      destruct (decide (_get_metadata_file data_type d symbol layer = p)) as [<-|Hne].
      * rewrite lookup_insert_eq in H. injection H as <-. cbn.
        repeat split; auto. intros ->. apply Hd. right. auto.
      * rewrite lookup_insert_ne in H by exact Hne.
        destruct (Hled p r H) as (H1 & H2 & H3 & H4). repeat split; auto.
        intros Hs. apply Hd. left. split; [auto|]. intros He. apply Hne.
        rewrite H2, He. reflexivity.
    + intros p w H.
      destruct (decide (_get_metadata_file data_type d symbol layer = p)) as [<-|Hne].
      * rewrite lookup_insert_eq in H. discriminate.
      * rewrite lookup_insert_ne in H by exact Hne. eapply Hwm, H.
    + intros d0 Hd0. apply Hd in Hd0 as [[Hin Hne]|[-> ->]].
      * destruct (Hseen d0 Hin) as (r & Hr & Hrest). exists r. split; [|exact Hrest].
        rewrite lookup_insert_ne; [exact Hr|]. intros He.
        apply metadata_file_inj in He. congruence.
      * exists r0. rewrite lookup_insert_eq. repeat split.
  - cbn [run_call standing]. unfold set_watermark.
    set (w0 := mkWatermark dt' sym' d layer' now).
    split; [|split].
    + intros p r H.
      destruct (decide (_get_watermark_file dt' sym' layer' = p)) as [<-|Hne].
      * rewrite lookup_insert_eq in H. discriminate.
      * rewrite lookup_insert_ne in H by exact Hne. apply Hled, H.
    + intros p w H.
      destruct (decide (_get_watermark_file dt' sym' layer' = p)) as [<-|Hne].
      * rewrite last_watermark_file. apply watermark_file_name_contains.
      * rewrite lookup_insert_ne in H by exact Hne. eapply Hwm, H.
    + intros d0 Hd0. destruct (Hseen d0 Hd0) as (r & Hr & Hdate & Hstat).
      exists r. repeat split; auto.
      rewrite lookup_insert_ne; [exact Hr|]. intros He.
      destruct (Hled _ _ Hr) as (_ & _ & Hname & _). rewrite Hdate in Hname.
      apply (f_equal (fun p => contains "watermark" (List.last p ""))) in He.
      rewrite last_watermark_file, watermark_file_name_contains in He.
      rewrite last_metadata_file, Hname in He. discriminate.
Qed.

Lemma ledger_inv_run (calls : list call) :
  forall (fs : FS) (seen : list string),
    ledger_inv data_type symbol layer fs seen ->
    forallb (call_ok data_type symbol layer) calls = true ->
    ledger_inv data_type symbol layer (run_calls fs calls) (foldl standing seen calls).
Proof.
  induction calls as [|c calls IH]; intros fs seen Hinv Hok; [exact Hinv|].
  cbn [forallb] in Hok. apply andb_prop in Hok as [Hc Hok].
  unfold run_calls. cbn [foldl]. apply IH; [|exact Hok].
  apply ledger_inv_step; assumption.
Qed.

End Run.

Lemma truthy_layer (layer : string) : layer <> "" -> truthy (Some layer) = true.
Proof. intros H. cbn. apply String.eqb_neq in H. rewrite H. reflexivity. Qed.

Lemma keep_success_inv (p : path) (f : file) (r : record) :
  keep_record None None (Some "success") (p, f) = Some r ->
  f = LedgerFile r /\ r_status r = "success".
Proof.
  unfold keep_record. cbn [fst snd truthy default from_option id andb].
  destruct (contains "watermark" (List.last p "")); [discriminate|].
  destruct f as [r'|w]; [|discriminate].
  change (negb (String.eqb "success" "")) with true. cbn [andb].
  destruct (String.eqb (r_status r') "success") eqn:E; cbn [negb]; [|discriminate].
  intros [= <-]. split; [reflexivity|]. apply String.eqb_eq, E.
Qed.

(** What [get_watermark] returns on a store that satisfies [ledger_inv]. *)
Lemma get_watermark_of_inv (data_type : string) (symbol : option string)
    (layer : string) (fs : FS) (seen : list string) :
  layer <> "" ->
  ledger_inv data_type symbol layer fs seen ->
  match (get_watermark data_type symbol layer fs).1 with
  | None => seen = []
  | Some m => In m seen /\ forall d, In d seen -> String.leb d m = true
  end.
Proof.
  intros Hlayer (Hled & Hwm & Hseen).
  unfold get_watermark, list_ingestions, search_dirs. cbn [fst].
  rewrite (truthy_layer _ Hlayer). cbn [default from_option id flat_map]. rewrite app_nil_r.
  set (dir := joinpath (joinpath [] layer) data_type).
  set (L := omap (keep_record None None (Some "success")) (rglob_json dir fs)).
  assert (HL : forall r, In r L ->
            r_symbol r = symbol /\ r_status r = "success" /\ In (r_date r) seen).
  { intros r Hr. apply in_listed in Hr as (p & f & Hfs & _ & _ & _ & Hkeep).
    apply keep_success_inv in Hkeep as [-> Hst].
    destruct (Hled _ _ Hfs) as (H1 & _ & _ & H4). auto. }
  assert (HS : forall d, In d seen -> exists r, In r L /\ r_date r = d).
  { intros d Hd. destruct (Hseen d Hd) as (r & Hr & Hdate & Hst).
    exists r. split; [|exact Hdate]. apply in_listed.
    destruct (metadata_file_under data_type d symbol layer) as [Hpre Hlen].
    destruct (Hled _ _ Hr) as (_ & _ & Hname & _).
    eexists _, _. split; [exact Hr|]. split; [exact Hpre|]. split; [exact Hlen|].
    rewrite last_metadata_file. split; [apply metadata_file_name_endswith|].
    unfold keep_record. cbn [fst snd truthy default from_option id andb].
    rewrite last_metadata_file, <- Hdate, Hname.
    change (negb (String.eqb "success" "")) with true. cbn [andb].
    rewrite Hst. reflexivity. }
  unfold sort_records.
  replace (forallb (fun a => forallb (comparable a) L) L) with true.
  2:{ symmetry. apply forallb_forall. intros a Ha. apply forallb_forall. intros b Hb.
      unfold comparable. destruct (HL a Ha) as [-> _], (HL b Hb) as [-> _].
      destruct symbol; apply orb_true_r. }
  pose proof (sort_by_perm key_lt L) as Hperm.
  set (S := sort_by key_lt L) in *.
  assert (Hfilter : (if truthy symbol
                     then List.filter (fun r => bool_decide (r_symbol r = symbol)) S
                     else S) = S).
  { destruct (truthy symbol); [|reflexivity]. apply filter_all. intros r Hr.
    apply bool_decide_eq_true. apply HL. eapply Permutation_in; [exact Hperm|exact Hr]. }
  rewrite Hfilter. destruct S as [|r rs] eqn:ES.
  - destruct seen as [|d seen']; [reflexivity|]. exfalso.
    destruct (HS d (or_introl eq_refl)) as (r & Hr & _).
    apply (Permutation_in _ (Permutation_sym Hperm)) in Hr. destruct Hr.
  - destruct (max_by_spec (fun a b => String.ltb (r_date a) (r_date b))
                (fun a b c => not_ltb_trans (r_date a) (r_date b) (r_date c))
                (fun a b => ltb_asym (r_date a) (r_date b))
                rs r) as [Hin Hmax].
    split.
    + apply HL. eapply Permutation_in; [exact Hperm|exact Hin].
    + intros d Hd. destruct (HS d Hd) as (r' & Hr' & <-).
      rewrite leb_ltb. apply negb_true_iff. apply Hmax.
      eapply Permutation_in; [exact (Permutation_sym Hperm)|exact Hr'].
Qed.


(** C1 (as stated, refuted): after a successful
    [set_watermark("stocks_daily", "2024-01-02")] on a fresh metadata root,
    [get_watermark("stocks_daily")] is absent, not "2024-01-02". *)
Lemma set_watermark_then_get_absent :
  (get_watermark "stocks_daily" None "bronze"
     (set_watermark "stocks_daily" "2024-01-02" None "bronze" "t" ∅)).1 = None
  /\ (get_watermark "stocks_daily" None "bronze"
        (set_watermark "stocks_daily" "2024-01-02" None "bronze" "t" ∅)).1
     <> Some "2024-01-02".
Proof.
  assert (E : (get_watermark "stocks_daily" None "bronze"
                 (set_watermark "stocks_daily" "2024-01-02" None "bronze" "t" ∅)).1 = None)
    by (vm_compute; reflexivity).
  rewrite E. split; [reflexivity|discriminate].
Qed.

(** C1 (amended): the watermark is read from the ledger, not from what
    [set_watermark] wrote. On a fresh metadata root, after any run of calls
    -- [record_ingestion] calls for the key (data_type, symbol, layer) with
    any status and any dates, repeated or not, and [set_watermark] calls
    whatever -- in which the path components are plain names and no ledger
    file name has "watermark" in it, [get_watermark] for the key returns
    the greatest of the dates whose latest [record_ingestion] has status
    'success' (absent when there is none), and it leaves the store as it
    was. A unit that failed and was retried with success counts; one that
    was recorded as failed after its success does not. *)
Theorem get_watermark_reads_ledger (data_type : string) (symbol : option string)
    (layer : string) (calls : list call) :
  layer <> "" ->
  forallb (call_ok data_type symbol layer) calls = true ->
  let fs := run_calls ∅ calls in
  (get_watermark data_type symbol layer fs).2 = fs
  /\ match (get_watermark data_type symbol layer fs).1 with
     | None => standing_successes calls = []
     | Some m =>
         In m (standing_successes calls)
         /\ forall d, In d (standing_successes calls) -> String.leb d m = true
     end.
Proof.
  intros Hlayer Hok fs. split; [reflexivity|].
  apply (get_watermark_of_inv data_type symbol layer fs (standing_successes calls) Hlayer).
  apply (ledger_inv_run data_type symbol layer calls ∅ []).
  - apply ledger_inv_empty.
  - exact Hok.
Qed.

Lemma get_watermark_reads_ledger_witness :
  get_watermark "stocks_daily" None "bronze" (run_calls ∅ retry_run)
  = (Some "2024-01-02", run_calls ∅ retry_run)
  /\ get_watermark "stocks_daily" None "bronze" (run_calls ∅ three_day_run)
     = (Some "2024-01-04", run_calls ∅ three_day_run).
Proof.
  split.
  - destruct (get_watermark_reads_ledger "stocks_daily" None "bronze" retry_run)
      as [Hfs Hm]; [discriminate|vm_compute; reflexivity|].
    destruct (get_watermark "stocks_daily" None "bronze" (run_calls ∅ retry_run))
      as [[m|] fs'] eqn:E; cbn [fst snd] in Hfs, Hm.
    + subst fs'. destruct Hm as [Hin _]. f_equal. f_equal.
      cbn in Hin. destruct Hin as [<-|[]]. reflexivity.
    + discriminate Hm.
  - destruct (get_watermark_reads_ledger "stocks_daily" None "bronze" three_day_run)
      as [Hfs Hm]; [discriminate|vm_compute; reflexivity|].
    destruct (get_watermark "stocks_daily" None "bronze" (run_calls ∅ three_day_run))
      as [[m|] fs'] eqn:E; cbn [fst snd] in Hfs, Hm.
    + subst fs'. destruct Hm as [Hin Hmax]. f_equal. f_equal.
      apply String.leb_antisym.
      * cbn in Hin. destruct Hin as [<-|[<-|[]]]; reflexivity.
      * apply Hmax. cbn. right. left. reflexivity.
    + discriminate Hm.
Defined.

End WatermarkFacts.

(** ** Units below the watermark *)

Module IngestFacts.
Import Metadata Ingest StringFacts WatermarkFacts.

Lemma watermark_file_not_ledger (data_type d : string) :
  _get_watermark_file data_type None "bronze"
  <> _get_metadata_file data_type d None "bronze".
Proof.
  intros He.
  assert (Hlast := f_equal (fun p => List.last p "") He). cbn beta in Hlast.
  rewrite last_watermark_file, last_metadata_file in Hlast.
  change ("watermark" +:+ ".json" = d +:+ ".json") in Hlast.
  apply append_inj_l in Hlast. subst d.
  apply (f_equal (@List.length string)) in He. revert He.
  unfold _get_watermark_file, _get_metadata_file.
  cbn [substring metadata_file_name watermark_file_name truthy].
  change ("watermark" +:+ ".json") with "watermark.json".
  rewrite !(joinpath_nonempty _ "wate"), !(joinpath_nonempty _ "ma"),
    !(joinpath_nonempty _ "watermark.json") by discriminate.
  rewrite !length_app. cbn. lia.
Qed.

Section Loop.

Variable gzip_read : string -> result (list Byte.byte).
Variable ingest_date : string -> list Byte.byte -> result (option (gmap string stat)).
Variable isoformat_now : nat -> string.
Variable data_type : string.

Abbreviation step := (process_file gzip_read ingest_date isoformat_now data_type).

(** The loop body on a unit at or below the watermark: nothing happens. *)
Lemma process_file_skip (w : string) (st : state) (d : landing_file) :
  w <> "" -> String.leb d w = true ->
  step true (Some w) st d = st.
Proof.
  intros Hw Hle. unfold process_file. cbn [truthy default from_option id andb].
  apply String.eqb_neq in Hw. rewrite Hw, Hle. reflexivity.
Qed.

Lemma same_for_refl d st : same_for data_type d st st.
Proof. split; auto. Qed.

Lemma same_for_trans d st1 st2 st3 :
  same_for data_type d st1 st2 -> same_for data_type d st2 st3 -> same_for data_type d st1 st3.
Proof. intros [H1 H2] [H3 H4]. split; [congruence|auto]. Qed.

Lemma same_for_record d d' status statistics error st :
  d' <> d ->
  same_for data_type d st (record isoformat_now data_type d' status statistics error st).
Proof.
  intros Hne. split; [|auto]. cbn. unfold record_ingestion.
  apply lookup_insert_ne. intros He. apply metadata_file_inj in He. auto.
Qed.

Lemma same_for_set_mark d d' st :
  same_for data_type d st (set_mark isoformat_now data_type d' st).
Proof.
  split; [|auto]. cbn. unfold set_watermark.
  apply lookup_insert_ne, watermark_file_not_ledger.
Qed.

Lemma same_for_log d e st :
  event_date e <> d -> same_for data_type d st (log_event e st).
Proof.
  intros Hne. split; [reflexivity|]. cbn. intros e' Hin He'.
  apply in_app_or in Hin as [Hin|[<-|[]]]; [exact Hin|contradiction].
Qed.

Lemma same_for_counters d fs n q tr c n' q' c' :
  same_for data_type d (mkState fs n q tr c) (mkState fs n' q' tr c').
Proof. split; auto. Qed.

(** The loop body on another unit leaves the unit [d] alone. *)
Lemma process_file_other (incremental : bool) (last_watermark : option string)
    (st : state) (d d' : string) :
  d' <> d -> same_for data_type d st (step incremental last_watermark st d').
Proof.
  intros Hne. unfold process_file.
  destruct (incremental && truthy last_watermark
            && String.leb d' (default "" last_watermark)); [apply same_for_refl|].
  eapply same_for_trans; [apply (same_for_log d (GzipRead d')); exact Hne|].
  destruct (gzip_read d') as [csv_data|msg]; [|apply same_for_record; exact Hne].
  eapply same_for_trans; [apply (same_for_log d (IngestDate d')); exact Hne|].
  destruct (ingest_date d' csv_data) as [result|msg]; [|apply same_for_record; exact Hne].
  match goal with |- context [if ?b then _ else _] => destruct b end;
    [|apply same_for_record; exact Hne].
  destruct (default (SNum 0) (default ∅ result !! "records")) as [rows|txt].
  - eapply same_for_trans; [|apply same_for_set_mark].
    eapply same_for_trans; [|apply same_for_record; exact Hne].
    destruct st. apply same_for_counters.
  - eapply same_for_trans; [|apply same_for_record; exact Hne].
    destruct st. apply same_for_counters.
Qed.

Lemma process_files_below (w d : string) (landing_files : list landing_file) :
  w <> "" -> String.leb d w = true ->
  forall st,
    same_for data_type d st (foldl (step true (Some w)) st landing_files).
Proof.
  intros Hw Hle. induction landing_files as [|d' l IH]; intros st; [apply same_for_refl|].
  cbn [foldl]. eapply same_for_trans; [|apply IH].
  destruct (String.eqb_spec d' d) as [->|Hne].
  - rewrite process_file_skip by assumption. apply same_for_refl.
  - apply process_file_other. exact Hne.
Qed.

(** C4 (amended): in incremental mode a candidate unit whose date is at or
    below the current (non-empty) watermark is skipped without any I/O on
    the unit and without any ledger entry being recorded for it: at the end
    of the run its ledger file is what it was before the run, and the trace
    has no read or ingest of it. *)
Theorem watermark_skip_records_nothing (landing_files : list landing_file)
    (fs : FS) (w d : string) :
  (get_watermark data_type None "bronze" fs).1 = Some w ->
  w <> "" ->
  In d landing_files ->
  String.leb d w = true ->
  let st := (process_landing_to_bronze gzip_read ingest_date isoformat_now data_type
               landing_files true fs).2 in
  st_fs st !! _get_metadata_file data_type d None "bronze"
    = fs !! _get_metadata_file data_type d None "bronze"
  /\ forall e, In e (st_trace st) -> event_date e <> d.
Proof.
  intros Hget Hw Hin Hle. unfold process_landing_to_bronze.
  destruct landing_files as [|d0 l] eqn:El; [destruct Hin|]. rewrite <- El. clear El Hin.
  rewrite Hget. cbn [snd].
  destruct (process_files_below w d landing_files Hw Hle (mkState fs 0 0%Q [] 0))
    as [Hfs Htr].
  split; [exact Hfs|]. intros e He Hd. exact (Htr e He Hd).
Qed.

End Loop.

(** C4 (as stated, refuted): with watermark 2024-01-03 the unit 2024-01-02 is
    skipped, and the ledger holds no entry for it afterwards, so none with
    status 'skipped'; only 2024-01-04 was read and ingested. *)
Lemma watermark_skip_leaves_no_skipped_entry :
  get_ingestion_status "stocks_daily" "2024-01-02" None (st_fs january_run.2) = None
  /\ List.filter (status_is "skipped") (ledger_entries (st_fs january_run.2)) = []
  /\ st_trace january_run.2 = [GzipRead "2024-01-04"; IngestDate "2024-01-04"]
  /\ january_run.1 = Completed 3 1 10.
Proof. vm_compute. repeat split; reflexivity. Qed.

Lemma watermark_skip_records_nothing_witness :
  st_fs january_run.2 !! ["bronze"; "stocks_daily"; "2024"; "01"; "2024-01-02.json"] = None
  /\ forall e, In e (st_trace january_run.2) -> event_date e <> "2024-01-02".
Proof.
  exact (watermark_skip_records_nothing always_reads always_ingests fixed_clock
           "stocks_daily" january_files ledger_up_to_jan3 "2024-01-03" "2024-01-02"
           eq_refl ltac:(discriminate) (or_introl eq_refl) eq_refl).
Defined.

End IngestFacts.

(** ** Order of values and sorted frames *)

Module PolarsFacts.
Import Polars.

Lemma float_ltb_asym (x y : float) :
  PrimFloat.ltb x y = true -> PrimFloat.ltb y x = false.
Proof.
  rewrite !ltb_spec. unfold SFltb, SFcompare.
  destruct (Prim2SF x) as [s1|s1| |s1 m1 e1], (Prim2SF y) as [s2|s2| |s2 m2 e2];
    try destruct s1; try destruct s2; cbn; try congruence.
  - rewrite (Z.compare_antisym e1 e2).
    destruct (e1 ?= e2)%Z; cbn; try congruence.
    change (Pos.compare_cont Eq m1 m2) with (m1 ?= m2)%positive.
    change (Pos.compare_cont Eq m2 m1) with (m2 ?= m1)%positive.
    rewrite (Pos.compare_antisym m1 m2).
    destruct (m1 ?= m2)%positive; cbn; congruence.
  - rewrite (Z.compare_antisym e1 e2).
    destruct (e1 ?= e2)%Z; cbn; try congruence.
    change (Pos.compare_cont Eq m1 m2) with (m1 ?= m2)%positive.
    change (Pos.compare_cont Eq m2 m1) with (m2 ?= m1)%positive.
    rewrite (Pos.compare_antisym m1 m2).
    destruct (m1 ?= m2)%positive; cbn; congruence.
Qed.

Lemma value_ltb_asym (a b : value) : value_ltb a b = true -> value_ltb b a = false.
Proof.
  destruct a as [x|x|x|x|y1 m1 d1], b as [y|y|y|y|y2 m2 d2]; cbn; try congruence.
  - apply StringFacts.ltb_asym.
  - intros H. apply Z.ltb_lt in H. apply Z.ltb_ge. lia.
  - apply float_ltb_asym.
  - destruct x, y; cbn; congruence.
  - intros H.
    destruct (Z.ltb_spec y1 y2), (Z.ltb_spec y2 y1), (Z.eqb_spec y1 y2), (Z.eqb_spec y2 y1),
      (Z.ltb_spec m1 m2), (Z.ltb_spec m2 m1), (Z.eqb_spec m1 m2), (Z.eqb_spec m2 m1),
      (Z.ltb_spec d1 d2), (Z.ltb_spec d2 d1); cbn in *; try reflexivity; try discriminate;
      lia.
Qed.

Lemma cell_ltb_asym (a b : option value) : cell_ltb a b = true -> cell_ltb b a = false.
Proof. destruct a, b; cbn; try congruence. apply value_ltb_asym. Qed.

Lemma cell_gtb_asym (a b : option value) :
  cell_gtb_nulls_first a b = true -> cell_gtb_nulls_first b a = false.
Proof. destruct a, b; cbn; try congruence. apply value_ltb_asym. Qed.

Lemma row_ltb_asym (by_ : list string) (a b : row) :
  row_ltb by_ a b = true -> row_ltb by_ b a = false.
Proof.
  induction by_ as [|c by_ IH]; cbn; [congruence|].
  destruct (cell_ltb (a !! c) (b !! c)) eqn:Eab.
  - rewrite (cell_ltb_asym _ _ Eab). reflexivity.
  - destruct (cell_ltb (b !! c) (a !! c)); cbn; [congruence|]. exact IH.
Qed.

Lemma insert_sorted_ascending {A} (lt : A -> A -> bool)
    (Hasym : forall a b, lt a b = true -> lt b a = false) (x : A) (l : list A) :
  ascending lt l -> ascending lt (insert_sorted lt x l).
Proof.
  unfold ascending. induction l as [|y l IH]; cbn; intros Hs.
  - repeat constructor.
  - destruct (lt y x) eqn:Eyx.
    + apply Sorted_inv in Hs as [Hs Hhd]. constructor; [exact (IH Hs)|].
      destruct l as [|z l]; cbn.
      * constructor. apply Hasym, Eyx.
      * destruct (lt z x) eqn:Ezx; constructor.
        -- apply HdRel_inv in Hhd. exact Hhd.
        -- apply Hasym, Eyx.
    + constructor; [exact Hs|]. constructor. exact Eyx.
Qed.

Lemma sort_by_ascending {A} (lt : A -> A -> bool)
    (Hasym : forall a b, lt a b = true -> lt b a = false) (l : list A) :
  ascending lt (sort_by lt l).
Proof.
  induction l as [|x l IH]; cbn; [constructor|].
  apply insert_sorted_ascending; assumption.
Qed.

(** [df.sort(by)] gives the rows of [df], none followed by a smaller one. *)
Lemma sort_sorted (by_ : list string) (df : DataFrame) :
  Permutation (rows (sort by_ df)) (rows df)
  /\ ascending (row_ltb by_) (rows (sort by_ df)).
Proof.
  split; [apply ListFacts.sort_by_perm|].
  apply sort_by_ascending. apply row_ltb_asym.
Qed.

Lemma sort_descending_sorted (c : string) (df : DataFrame) :
  Permutation (rows (sort_descending c df)) (rows df)
  /\ ascending (fun a b : row => cell_gtb_nulls_first (a !! c) (b !! c))
       (rows (sort_descending c df)).
Proof.
  split; [apply ListFacts.sort_by_perm|].
  apply sort_by_ascending. intros a b. apply cell_gtb_asym.
Qed.

End PolarsFacts.

(** ** Merge, ratios and growth rates of the flattener *)

Module FlattenFacts.
Import Polars Flatten.

Lemma set_cell_ne (name c : string) (v : option value) (r : row) :
  c <> name -> set_cell name v r !! c = r !! c.
Proof.
  intros Hne. destruct v as [v|]; cbn.
  - apply lookup_insert_ne. congruence.
  - apply lookup_delete_ne. congruence.
Qed.

Lemma set_cell_eq (name : string) (v : option value) (r : row) :
  set_cell name v r !! name = v.
Proof.
  destruct v as [v|]; cbn; [apply lookup_insert_eq|apply lookup_delete_eq].
Qed.

Lemma group_key_set_cell (name by_ : string) (v : option value) (r : row) :
  by_ <> name -> group_key by_ (set_cell name v r) = group_key by_ r.
Proof. intros Hne. unfold group_key. rewrite set_cell_ne by exact Hne. reflexivity. Qed.

(** *** C2: the merge *)

(** C2 (the code departs from it): merging balance sheets for the periods
    {1,2}, income statements for {2,3} and cash flows for {1,3} gives four
    rows, not three. The rows of the periods 1 and 2 carry their keys; the
    income statement and the cash flow of period 3 come out as two separate
    rows whose four key cells are null: the right-hand key columns of each
    full join are dropped, not coalesced. *)
Lemma flatten_ticker_drops_right_keys :
  merged_keys =
    [ [Some (VStr "AAPL"); Some (VDate 2024 3 1); Some (VInt 2024); Some (VInt 1)];
      [Some (VStr "AAPL"); Some (VDate 2024 6 1); Some (VInt 2024); Some (VInt 2)];
      [None; None; None; None];
      [None; None; None; None] ]
  /\ ~ In [Some (VStr "AAPL"); Some (VDate 2024 9 1); Some (VInt 2024); Some (VInt 3)]
         merged_keys.
Proof.
  assert (E : merged_keys =
    [ [Some (VStr "AAPL"); Some (VDate 2024 3 1); Some (VInt 2024); Some (VInt 1)];
      [Some (VStr "AAPL"); Some (VDate 2024 6 1); Some (VInt 2024); Some (VInt 2)];
      [None; None; None; None];
      [None; None; None; None] ]) by (vm_compute; reflexivity).
  rewrite E. split; [reflexivity|].
  intros [H|[H|[H|[H|[]]]]]; discriminate H.
Qed.

(** *** C5: ratios *)

(** C5 (the code departs from it): with a denominator equal to 0 the ratio
    is not null: [ratio_roe] is +infinity for 1.0 / 0.0 and NaN for
    0.0 / 0.0. It is null only when an operand is null (third row). *)
Lemma ratio_roe_zero_equity :
  List.map (fun r : row => r !! "ratio_roe") (rows (_calculate_financial_ratios zero_equity))
  = [Some (VFloat infinity); Some (VFloat nan); None].
Proof. vm_compute. reflexivity. Qed.

(** Division by a zero of either sign: an infinity or NaN, never a finite
    number. *)
Lemma div_by_zero_not_finite (x : float) (s : bool) :
  match SF64div (Prim2SF x) (S754_zero s) with
  | S754_infinity _ | S754_nan => True
  | _ => False
  end.
Proof. destruct (Prim2SF x) as [sx|sx| |sx m e]; cbn; exact I. Qed.

(** *** Every ratio, row by row *)

Lemma ratios_unfold (df : DataFrame) :
  _calculate_financial_ratios df
  = foldl (fun result s => add_ratio df s.1.1 s.1.2 s.2 result) df ratios.
Proof. reflexivity. Qed.

Lemma ratios_read_sources :
  Forall (fun s => reads_sources_only s.2) ratios.
Proof.
  unfold ratios. repeat constructor; intros r r' H; cbn [snd];
    rewrite ?(H "is_net_income_loss"), ?(H "bs_equity"), ?(H "bs_assets"),
      ?(H "is_revenues"), ?(H "is_operating_income_loss"), ?(H "bs_current_assets"),
      ?(H "bs_current_liabilities"), ?(H "bs_inventory"), ?(H "bs_liabilities");
    try reflexivity;
    cbn; intuition discriminate.
Qed.

Lemma ratios_inv_step (df : DataFrame) done s result :
  In s.1.2 ratio_names ->
  ~ In s.1.2 (List.map (fun s => s.1.2) done) ->
  reads_sources_only s.2 ->
  ratios_inv df done result ->
  ratios_inv df (done ++ [s]) (add_ratio df s.1.1 s.1.2 s.2 result).
Proof.
  intros Hname Hfresh Hreads [Hlen Hrows]. unfold add_ratio.
  destruct (forallb (has_column df) s.1.1) eqn:Hcond.
  - split; [cbn; rewrite length_map; exact Hlen|].
    intros j r'' Hj. cbn [rows with_column] in Hj. rewrite list_lookup_fmap in Hj.
    destruct (rows result !! j) as [r'|] eqn:Hr'; [|discriminate]. injection Hj as <-.
    destruct (Hrows j r' Hr') as (r & Hr & Hsame & Hdone).
    exists r. split; [exact Hr|]. split; [|apply Forall_app; split].
    + intros c Hc. rewrite set_cell_ne; [auto|]. intros ->. contradiction.
    + apply List.Forall_forall. intros d Hin Hcd.
      rewrite set_cell_ne; [exact (proj1 (List.Forall_forall _ _) Hdone d Hin Hcd)|].
      intros He. apply Hfresh. rewrite <- He.
      apply (in_map (fun s => s.1.2)). exact Hin.
    + constructor; [|constructor]. intros _. rewrite set_cell_eq.
      apply Hreads. exact Hsame.
  - split; [exact Hlen|]. intros j r' Hj.
    destruct (Hrows j r' Hj) as (r & Hr & Hsame & Hdone).
    exists r. split; [exact Hr|]. split; [exact Hsame|].
    apply Forall_app. split; [exact Hdone|]. constructor; [|constructor].
    intros H. congruence.
Qed.

Lemma ratios_inv_fold (df : DataFrame) steps :
  forall done result,
    (forall s, In s steps -> In s.1.2 ratio_names /\ reads_sources_only s.2) ->
    NoDup (List.map (fun s => s.1.2) (done ++ steps)) ->
    ratios_inv df done result ->
    ratios_inv df (done ++ steps)
      (foldl (fun result s => add_ratio df s.1.1 s.1.2 s.2 result) result steps).
Proof.
  induction steps as [|s steps IH]; intros done result Hsteps Hnd Hinv.
  - cbn. rewrite app_nil_r. exact Hinv.
  - cbn [foldl]. change (s :: steps) with ([s] ++ steps) in Hnd |- *.
    rewrite app_assoc in Hnd |- *. apply IH.
    + intros s' Hs'. apply Hsteps. right. exact Hs'.
    + exact Hnd.
    + destruct (Hsteps s (or_introl eq_refl)) as [Hname Hreads].
      apply ratios_inv_step; [exact Hname| |exact Hreads|exact Hinv].
      rewrite !List.map_app in Hnd. apply NoDup_app in Hnd as [Hnd _].
      apply NoDup_app in Hnd as (_ & Hd & _). intros Hin.
      apply (Hd s.1.2); [apply list_elem_of_In, Hin|]. cbn. left.
Qed.

(** Every ratio of the result is its expression on the input row, and the
    other columns are the input's. *)
Lemma ratios_spec (df : DataFrame) :
  List.length (rows (_calculate_financial_ratios df)) = List.length (rows df)
  /\ forall j r', rows (_calculate_financial_ratios df) !! j = Some r' ->
       exists r, rows df !! j = Some r
         /\ (forall c, ~ In c ratio_names -> r' !! c = r !! c)
         /\ Forall (fun s => forallb (has_column df) s.1.1 = true -> r' !! s.1.2 = s.2 r)
              ratios.
Proof.
  rewrite ratios_unfold.
  apply (ratios_inv_fold df ratios [] df).
  - intros s Hs. split.
    + unfold ratio_names.
      exact (in_map (fun s : list string * string * (row -> option value) => s.1.2) _ _ Hs).
    + revert s Hs. apply List.Forall_forall, ratios_read_sources.
  - apply (bool_decide_unpack _). vm_compute. exact I.
  - split; [reflexivity|]. intros k r Hr. exists r. repeat split; auto.
Qed.

(** A ratio is null when an operand is null; with both operands present it
    is the IEEE quotient, which is an infinity or NaN when the denominator
    is a zero. *)
Lemma cell_div_null_r (a : option value) : cell_div a None = None.
Proof. unfold cell_div, float_op. destruct (as_float a); reflexivity. Qed.

Lemma cell_div_by_zero (x y : float) :
  is_zero y ->
  exists q, cell_div (Some (VFloat x)) (Some (VFloat y)) = Some (VFloat q) /\ not_finite q.
Proof.
  intros Hy. eexists. split; [reflexivity|].
  unfold not_finite, is_zero in *. rewrite div_spec.
  destruct (Prim2SF y) as [s| | |]; try contradiction.
  apply div_by_zero_not_finite.
Qed.

(** Return on equity, row by row: null when net income or equity is null,
    and an infinity or NaN (never null) when both are present and equity is
    a zero. *)
Lemma ratio_roe_rows (df : DataFrame) (j : nat) (r : row) :
  has_column df "is_net_income_loss" = true ->
  has_column df "bs_equity" = true ->
  rows df !! j = Some r ->
  exists r',
    rows (_calculate_financial_ratios df) !! j = Some r'
    /\ r' !! "ratio_roe" = cell_div (r !! "is_net_income_loss") (r !! "bs_equity")
    /\ (r !! "bs_equity" = None -> r' !! "ratio_roe" = None)
    /\ (forall x y, r !! "is_net_income_loss" = Some (VFloat x) ->
                    r !! "bs_equity" = Some (VFloat y) -> is_zero y ->
                    exists q, r' !! "ratio_roe" = Some (VFloat q) /\ not_finite q).
Proof.
  intros Hn He Hr. destruct (ratios_spec df) as [Hlen Hrows].
  destruct (rows (_calculate_financial_ratios df) !! j) as [r'|] eqn:Hr'.
  - destruct (Hrows j r' Hr') as (r0 & Hr0 & _ & Hall).
    assert (r0 = r) as -> by congruence.
    apply Forall_inv in Hall. cbn [fst snd forallb] in Hall.
    rewrite Hn, He in Hall. specialize (Hall eq_refl).
    exists r'. split; [reflexivity|]. split; [exact Hall|]. rewrite Hall. split.
    + intros ->. apply cell_div_null_r.
    + intros x y -> -> Hy. apply cell_div_by_zero. exact Hy.
  - exfalso. apply lookup_ge_None in Hr'. apply lookup_lt_Some in Hr. lia.
Qed.

(** *** C7: growth rates *)

Lemma shift_over_from_length (rs : list row) :
  forall hist n col by_,
    List.length (shift_over_from hist n col by_ rs) = List.length rs.
Proof.
  induction rs as [|r rs IH]; intros hist n col by_; cbn; [reflexivity|].
  rewrite IH. reflexivity.
Qed.

(** The shifted value is null while the group has had fewer than [n] rows. *)
Lemma shift_over_from_null (n : nat) (col by_ : string) (rs : list row) :
  forall (hist : gmap (option string) (list (option value))) (j : nat) (r : row),
    rs !! j = Some r ->
    (List.length (default [] (hist !! group_key by_ r))
     + List.length (List.filter
                      (fun r' => bool_decide (group_key by_ r' = group_key by_ r))
                      (take j rs)) < n)%nat ->
    shift_over_from hist n col by_ rs !! j = Some None.
Proof.
  induction rs as [|r0 rs IH]; intros hist j r Hj Hlt; [discriminate|].
  destruct j as [|j]; cbn [shift_over_from].
  - injection Hj as ->. cbn in Hlt. cbn [lookup list_lookup]. f_equal.
    rewrite (lookup_ge_None_2 (_ :: _) n); [reflexivity|]. cbn. lia.
  - change ((r0 :: rs) !! S j) with (rs !! j) in Hj.
    change (shift_over_from
              (<[group_key by_ r0 := (r0 !! col) :: default [] (hist !! group_key by_ r0)]> hist)
              n col by_ rs !! j = Some None).
    apply (IH _ j r Hj).
    cbn [take List.filter] in Hlt.
    destruct (decide (group_key by_ r0 = group_key by_ r)) as [He|Hne].
    + rewrite (bool_decide_eq_true_2 _ He) in Hlt. rewrite He, lookup_insert_eq.
      cbn in *. lia.
    + rewrite (bool_decide_eq_false_2 _ Hne) in Hlt.
      rewrite lookup_insert_ne by exact Hne. exact Hlt.
Qed.

Lemma shift_over_null (n : nat) (col : string) (rs : list row) (j : nat) :
  (j < List.length rs)%nat ->
  (prior_periods rs j < n)%nat ->
  shift_over n col "ticker" rs !! j = Some None.
Proof.
  intros Hj Hlt. unfold prior_periods in Hlt.
  destruct (rs !! j) as [r|] eqn:Hr.
  - apply (shift_over_from_null n col "ticker" rs ∅ j r Hr).
    rewrite lookup_empty. cbn. exact Hlt.
  - apply lookup_ge_None in Hr. lia.
Qed.

Lemma with_series_lookup (name : string) (series : list (option value))
    (df : DataFrame) (j : nat) (r' : row) :
  rows (with_series name series df) !! j = Some r' ->
  exists r v, rows df !! j = Some r /\ series !! j = Some v /\ r' = set_cell name v r.
Proof.
  cbn. rewrite list_lookup_fmap. intros H.
  destruct (List.combine (rows df) series !! j) as [[r v]|] eqn:E; [|discriminate].
  injection H as <-. exists r, v. cbn.
  revert j E. generalize (rows df) as l. intros l. revert series.
  induction l as [|x l IH]; intros [|y series] j E; try discriminate.
  destruct j as [|j]; cbn in E.
  - injection E as -> ->. auto.
  - destruct (IH _ _ E) as (H1 & H2 & H3). auto.
Qed.

(** Two lists of rows with the same tickers, position by position, count the
    same earlier periods. *)
Lemma prior_periods_ext (rs rs' : list row) (j : nat) :
  List.map (group_key "ticker") rs' = List.map (group_key "ticker") rs ->
  prior_periods rs' j = prior_periods rs j.
Proof.
  revert rs' j. induction rs as [|r rs IH]; intros [|r' rs'] j H; try discriminate;
    [reflexivity|].
  injection H as Hk H. destruct j as [|j]; [reflexivity|].
  specialize (IH rs' j H). unfold prior_periods in *.
  change ((r' :: rs') !! S j) with (rs' !! j). change ((r :: rs) !! S j) with (rs !! j).
  assert (Hl : group_key "ticker" <$> rs' !! j = group_key "ticker" <$> rs !! j).
  { rewrite <- !list_lookup_fmap. f_equal. exact H. }
  destruct (rs' !! j) as [a'|], (rs !! j) as [a|]; cbn in Hl; try discriminate;
    [|reflexivity].
  injection Hl as Hl. cbn [take List.filter]. rewrite Hk, Hl.
  destruct (bool_decide (group_key "ticker" r = group_key "ticker" a));
    cbn [List.length]; rewrite <- ?Hl in *; rewrite IH; reflexivity.
Qed.

Lemma same_but_keys (name : string) (rs rs' : list row) :
  name <> "ticker" -> same_but name rs rs' ->
  List.map (group_key "ticker") rs' = List.map (group_key "ticker") rs.
Proof.
  intros Hne [Hlen H]. apply list_eq. intros j. rewrite !list_lookup_fmap.
  destruct (rs' !! j) as [r'|] eqn:E'.
  - destruct (H j r' E') as (r & -> & Hc). cbn. unfold group_key.
    rewrite (Hc "ticker") by congruence. reflexivity.
  - apply lookup_ge_None in E'. rewrite (lookup_ge_None_2 rs j) by lia. reflexivity.
Qed.

Lemma same_but_refl (name : string) (rs : list row) : same_but name rs rs.
Proof. split; [reflexivity|]. intros j r H. exists r. auto. Qed.

Lemma null_below_same_but (n : nat) (name name' : string) (rs rs' : list row) :
  name' <> "ticker" -> name <> name' ->
  same_but name' rs rs' -> null_below n name rs -> null_below n name rs'.
Proof.
  intros Ht Hne Hsame Hnull j r' Hj Hlt.
  rewrite (prior_periods_ext rs rs' j (same_but_keys _ _ _ Ht Hsame)) in Hlt.
  destruct Hsame as [_ H]. destruct (H j r' Hj) as (r & Hr & Hc).
  rewrite (Hc name) by exact Hne. exact (Hnull j r Hr Hlt).
Qed.

Lemma cell_sub_null_r (a : option value) : cell_sub a None = None.
Proof. unfold cell_sub, float_op. destruct (as_float a); reflexivity. Qed.

Lemma cell_div_null_l (b : option value) : cell_div None b = None.
Proof. reflexivity. Qed.

(** One growth step changes its own column only, and leaves it null below
    the lookback. *)
Lemma add_growth_same_but (df : DataFrame) (col : string) (n : nat)
    (den : option value -> option value) (name : string) (result : DataFrame) :
  same_but name (rows result) (rows (add_growth df col n den name result)).
Proof.
  unfold add_growth. destruct (has_column df col); [|apply same_but_refl].
  split.
  - unfold with_series, shift_over. cbn [rows].
    rewrite length_map, length_combine, length_map, length_combine,
      shift_over_from_length. lia.
  - intros j r' Hj. apply with_series_lookup in Hj as (r & v & Hr & _ & ->).
    exists r. split; [exact Hr|]. intros c Hc. apply set_cell_ne. exact Hc.
Qed.

Lemma add_growth_null_below (df : DataFrame) (col : string) (n : nat)
    (den : option value -> option value) (name : string) (result : DataFrame) :
  name <> "ticker" ->
  has_column df col = true ->
  null_below n name (rows (add_growth df col n den name result)).
Proof.
  intros Ht Hcol j r' Hj Hlt.
  rewrite (prior_periods_ext (rows result) _ j
             (same_but_keys _ _ _ Ht (add_growth_same_but df col n den name result)))
    in Hlt.
  unfold add_growth in Hj. rewrite Hcol in Hj.
  apply with_series_lookup in Hj as (r & v & Hr & Hv & ->).
  rewrite set_cell_eq. rewrite list_lookup_fmap in Hv.
  destruct (List.combine (rows result) (shift_over n col "ticker" (rows result)) !! j)
    as [[r1 p]|] eqn:E; [|discriminate].
  injection Hv as <-. cbn [fst snd].
  assert (Hp : p = None).
  { assert (Hs := shift_over_null n col (rows result) j
                    (lookup_lt_Some _ _ _ Hr) Hlt).
    clear -E Hs. revert E Hs. generalize (shift_over n col "ticker" (rows result)).
    generalize (rows result). intros l. revert j.
    induction l as [|x l IH]; intros j [|y s] E Hs; try discriminate.
    destruct j as [|j]; cbn in E, Hs.
    - injection E as _ <-. injection Hs as ->. reflexivity.
    - eapply IH; eassumption. }
  subst p. rewrite cell_sub_null_r. reflexivity.
Qed.

Lemma prior_lt_periods (rs : list row) (j : nat) (r : row) :
  rs !! j = Some r ->
  (prior_periods rs j < periods_of (group_key "ticker" r) rs)%nat.
Proof.
  intros Hj. unfold prior_periods, periods_of. rewrite Hj.
  rewrite <- (take_drop_middle rs j r Hj) at 2.
  rewrite List.filter_app, length_app. cbn [List.filter].
  rewrite (bool_decide_eq_true_2 _ eq_refl). cbn [List.length]. lia.
Qed.

Lemma null_below_all (n : nat) (name : string) (rs : list row) (g : option string) :
  null_below n name rs ->
  (periods_of g rs <= n)%nat ->
  forall r, In r rs -> group_key "ticker" r = g -> r !! name = None.
Proof.
  intros Hnull Hle r Hin Hg. apply list_elem_of_In, list_elem_of_lookup in Hin as [j Hj].
  apply (Hnull j r Hj). pose proof (prior_lt_periods rs j r Hj) as H.
  rewrite Hg in H. lia.
Qed.

(** C7: [_calculate_growth_rates] sorts by ticker and filing date and then
    computes each growth metric with a shift of N periods within the ticker
    (N = 4 year over year, N = 1 quarter over quarter). The rows of the
    result are those of the sorted table (the rows of the input, none
    followed by a smaller one), in that order, changed in the growth columns
    only. For every growth metric whose source column is in
    the table, a row with fewer than N earlier periods of its ticker has a
    null growth value (so the earliest N rows of each ticker are null and
    only rows with at least N prior periods carry a value), and a ticker
    with at most N rows is null in every row. *)
Theorem growth_null_within_lookback (df : DataFrame) :
  let sorted := sort ["ticker"; "filing_date"] df in
  let out := _calculate_growth_rates df in
  Permutation (rows sorted) (rows df)
  /\ ascending (row_ltb ["ticker"; "filing_date"]) (rows sorted)
  /\ List.length (rows out) = List.length (rows sorted)
  /\ (forall j r', rows out !! j = Some r' ->
        exists r, rows sorted !! j = Some r
                  /\ forall c, ~ In c (List.map (fun m => m.1.1) growth_metrics) ->
                               r' !! c = r !! c)
  /\ Forall
       (fun m =>
          let '(name, col, n) := m in
          has_column df col = true ->
          null_below n name (rows out)
          /\ (forall r, In r (rows out) -> is_Some (r !! name) ->
                exists j, rows out !! j = Some r /\ (n <= prior_periods (rows out) j)%nat)
          /\ forall g, (periods_of g (rows out) <= n)%nat ->
                       forall r, In r (rows out) -> group_key "ticker" r = g ->
                                 r !! name = None)
       growth_metrics.
Proof.
  intros sorted out.
  set (s1 := add_growth df "is_revenues" 4 id "growth_revenue_yoy" sorted).
  set (s2 := add_growth df "is_revenues" 1 id "growth_revenue_qoq" s1).
  set (s3 := add_growth df "is_net_income_loss" 4 cell_abs "growth_net_income_yoy" s2).
  assert (Hout : out = add_growth df "bs_assets" 4 id "growth_assets_yoy" s3) by reflexivity.
  pose proof (add_growth_same_but df "is_revenues" 4 id "growth_revenue_yoy" sorted) as B1.
  pose proof (add_growth_same_but df "is_revenues" 1 id "growth_revenue_qoq" s1) as B2.
  pose proof (add_growth_same_but df "is_net_income_loss" 4 cell_abs
                "growth_net_income_yoy" s2) as B3.
  pose proof (add_growth_same_but df "bs_assets" 4 id "growth_assets_yoy" s3) as B4.
  fold s1 in B1. fold s2 in B2. fold s3 in B3. rewrite <- Hout in B4.
  split; [apply ListFacts.sort_by_perm|].
  split; [apply PolarsFacts.sort_by_ascending, PolarsFacts.row_ltb_asym|].
  split; [|split].
  - destruct B1 as [L1 _], B2 as [L2 _], B3 as [L3 _], B4 as [L4 _]. congruence.
  - intros j r4 H4.
    destruct (proj2 B4 j r4 H4) as (r3 & H3 & C4).
    destruct (proj2 B3 j r3 H3) as (r2 & H2 & C3).
    destruct (proj2 B2 j r2 H2) as (r1 & H1 & C2).
    destruct (proj2 B1 j r1 H1) as (r0 & H0 & C1).
    exists r0. split; [exact H0|]. intros c Hc. cbn in Hc.
    rewrite C4, C3, C2, C1 by (intros ->; apply Hc; tauto). reflexivity.
  - assert (Hmore : forall n name,
              null_below n name (rows out) ->
              null_below n name (rows out)
              /\ (forall r, In r (rows out) -> is_Some (r !! name) ->
                    exists j, rows out !! j = Some r
                              /\ (n <= prior_periods (rows out) j)%nat)
              /\ forall g, (periods_of g (rows out) <= n)%nat ->
                           forall r, In r (rows out) -> group_key "ticker" r = g ->
                                     r !! name = None).
    { intros n name Hnull. split; [exact Hnull|]. split.
      - intros r Hin [v Hv].
        apply list_elem_of_In, list_elem_of_lookup in Hin as [j Hj]. exists j.
        split; [exact Hj|]. destruct (Nat.le_gt_cases n (prior_periods (rows out) j))
          as [Hle|Hgt]; [exact Hle|].
        rewrite (Hnull j r Hj Hgt) in Hv. discriminate.
      - intros g. apply null_below_all. exact Hnull. }
    constructor; [|constructor; [|constructor; [|constructor; [|constructor]]]];
      cbn beta iota zeta; intros Hcol; apply Hmore.
    + apply (null_below_same_but 4 _ "growth_assets_yoy" (rows s3)); [done|done|exact B4|].
      apply (null_below_same_but 4 _ "growth_net_income_yoy" (rows s2)); [done|done|exact B3|].
      apply (null_below_same_but 4 _ "growth_revenue_qoq" (rows s1)); [done|done|exact B2|].
      apply add_growth_null_below; [done|exact Hcol].
    + apply (null_below_same_but 1 _ "growth_assets_yoy" (rows s3)); [done|done|exact B4|].
      apply (null_below_same_but 1 _ "growth_net_income_yoy" (rows s2)); [done|done|exact B3|].
      apply add_growth_null_below; [done|exact Hcol].
    + apply (null_below_same_but 4 _ "growth_assets_yoy" (rows s3)); [done|done|exact B4|].
      apply add_growth_null_below; [done|exact Hcol].
    + rewrite Hout. apply add_growth_null_below; [done|exact Hcol].
Qed.

Lemma growth_null_within_lookback_witness :
  List.map (fun r : row => (r !! "filing_date", r !! "growth_revenue_yoy"))
    (rows (_calculate_growth_rates quarters))
  = [(Some (VStr "2023-05-04"), None); (Some (VStr "2023-08-03"), None);
     (Some (VStr "2023-11-02"), None); (Some (VStr "2024-02-01"), None);
     (Some (VStr "2024-05-02"), Some (VFloat 0.25));
     (Some (VStr "2024-01-30"), None); (Some (VStr "2024-04-25"), None)]
  /\ null_below 4 "growth_revenue_yoy" (rows (_calculate_growth_rates quarters))
  /\ forall r, In r (rows (_calculate_growth_rates quarters)) ->
               group_key "ticker" r = Some "MSFT" -> r !! "growth_revenue_yoy" = None.
Proof.
  split; [vm_compute; reflexivity|].
  destruct (growth_null_within_lookback quarters) as (_ & _ & _ & _ & HF).
  apply Forall_inv in HF. cbn beta iota zeta in HF.
  destruct (HF eq_refl) as (Hnull & _ & Hall). split; [exact Hnull|].
  apply (Hall (Some "MSFT")). vm_compute. lia.
Defined.

End FlattenFacts.

(** ** The unified schema *)

Module SchemaFacts.
Import Schema.

Lemma collect_columns_stats (schema : list (string * string)) (c : string) :
  forall (U : gset string) (S : gmap string col_stats),
    let S' := (foldl collect_column (U, S) schema).2 in
    count (default no_stats (S' !! c))
      = count (default no_stats (S !! c))
        + Z.of_nat (List.length (List.filter (named c) schema))
    /\ dtypes (default no_stats (S' !! c))
      = dtypes (default no_stats (S !! c))
        ∪ list_to_set (List.map snd (List.filter (named c) schema)).
Proof.
  induction schema as [|[col d] schema IH]; intros U S; cbn [foldl].
  - cbn. split; [lia|]. symmetry. apply (right_id_L ∅ (∪)).
  - cbn [collect_column fst snd].
    destruct (IH ({[col]} ∪ U)
                (<[col := mkStats (count (default no_stats (S !! col)) + 1)
                            ({[d]} ∪ dtypes (default no_stats (S !! col)))]> S))
      as [Hc Hd].
    cbn zeta in Hc, Hd |- *. rewrite Hc, Hd. clear Hc Hd IH.
    cbn [List.filter]. change (named c (col, d)) with (String.eqb col c).
    destruct (String.eqb_spec col c) as [->|Hne].
    + rewrite lookup_insert_eq. cbn [default from_option id count dtypes List.length
        List.map snd list_to_set]. split; [lia|].
      rewrite (comm_L (∪) {[d]} (dtypes _)), <- (assoc_L (∪)). reflexivity.
    + rewrite lookup_insert_ne by exact Hne. split; reflexivity.
Qed.

Lemma scan_file_step (U T : gset string) (S : gmap string col_stats) (f : parquet_file) :
  scan_file (U, T, S) f
  = match pf_schema f with
    | None => (U, {[pf_ticker f]} ∪ T, S)
    | Some schema =>
        ((foldl collect_column (U, S) schema).1, {[pf_ticker f]} ∪ T,
         (foldl collect_column (U, S) schema).2)
    end.
Proof.
  unfold scan_file. destruct (pf_schema f) as [schema|]; [|reflexivity].
  destruct (foldl collect_column (U, S) schema). reflexivity.
Qed.

Lemma scan_files_stats (files : list parquet_file) (c : string) :
  forall (U T : gset string) (S : gmap string col_stats),
    let S' := (foldl scan_file (U, T, S) files).2 in
    count (default no_stats (S' !! c))
      = count (default no_stats (S !! c))
        + Z.of_nat (List.length
                      (List.flat_map
                         (fun f => List.filter (named c) (default [] (pf_schema f)))
                         files))
    /\ dtypes (default no_stats (S' !! c))
      = dtypes (default no_stats (S !! c)) ∪ observed c files.
Proof.
  induction files as [|f files IH]; intros U T S; cbn [foldl].
  - cbn. split; [lia|]. symmetry. apply (right_id_L ∅ (∪)).
  - rewrite scan_file_step. unfold observed. cbn [List.flat_map]. fold (observed c files).
    destruct (pf_schema f) as [schema|] eqn:Ef; cbn [default from_option id].
    + destruct (IH (foldl collect_column (U, S) schema).1 ({[pf_ticker f]} ∪ T)
                  (foldl collect_column (U, S) schema).2) as [Hc Hd].
      destruct (collect_columns_stats schema c U S) as [Hc1 Hd1].
      cbn zeta in Hc, Hd, Hc1, Hd1 |- *. rewrite Hc, Hd, Hc1, Hd1.
      rewrite length_app, list_to_set_app_L. split; [lia|].
      rewrite <- (assoc_L (∪)). reflexivity.
    + destruct (IH U ({[pf_ticker f]} ∪ T) S) as [Hc Hd].
      cbn zeta in Hc, Hd |- *. rewrite Hc, Hd. split; reflexivity.
Qed.

Lemma named_once (schema : list (string * string)) (c : string) :
  NoDup (List.map fst schema) ->
  List.length (List.filter (named c) schema)
  = if existsb (String.eqb c) (List.map fst schema) then 1%nat else 0%nat.
Proof.
  induction schema as [|[col d] schema IH]; cbn [List.map List.filter existsb fst];
    intros Hnd; [reflexivity|].
  apply NoDup_cons in Hnd as [Hnotin Hnd]. rewrite (String.eqb_sym c col).
  change (named c (col, d)) with (String.eqb col c).
  destruct (String.eqb_spec col c) as [->|Hne]; cbn [orb List.length].
  - rewrite (IH Hnd). destruct (existsb (String.eqb c) (List.map fst schema)) eqn:E;
      [|reflexivity].
    exfalso. apply existsb_exists in E as (x & Hx & Hxe).
    apply String.eqb_eq in Hxe. subst x. apply Hnotin, list_elem_of_In, Hx.
  - exact (IH Hnd).
Qed.

Lemma occurrences_flat (files : list parquet_file) (c : string) :
  forallb distinct_columns files = true ->
  Z.of_nat (List.length
              (List.flat_map
                 (fun f => List.filter (named c) (default [] (pf_schema f))) files))
  = occurrences c files.
Proof.
  unfold occurrences, Py.count.
  induction files as [|f files IH]; cbn [forallb List.flat_map List.filter]; intros H;
    [reflexivity|].
  apply andb_prop in H as [Hf H]. rewrite length_app, Nat2Z.inj_add, (IH H).
  apply bool_decide_eq_true in Hf. rewrite (named_once _ c Hf).
  destruct (pf_schema f) as [schema|]; cbn [default from_option id List.map existsb].
  - destruct (existsb (String.eqb c) (List.map fst schema)); cbn [List.length]; lia.
  - reflexivity.
Qed.

(** The columns and tickers that a scan collects. *)
Lemma collect_columns_seen (schema : list (string * string)) :
  forall (U : gset string) (S : gmap string col_stats),
    (foldl collect_column (U, S) schema).1 = U ∪ list_to_set (List.map fst schema).
Proof.
  induction schema as [|[col d] schema IH]; intros U S; cbn [foldl List.map list_to_set].
  - symmetry. apply (right_id_L ∅ (∪)).
  - cbn [collect_column fst snd]. rewrite IH.
    rewrite (comm_L (∪) {[col]} U), <- (assoc_L (∪)). reflexivity.
Qed.

Lemma scan_files_seen (files : list parquet_file) :
  forall (U T : gset string) (S : gmap string col_stats),
    (foldl scan_file (U, T, S) files).1.1 = U ∪ columns_seen files
    /\ (foldl scan_file (U, T, S) files).1.2 = T ∪ tickers_seen files.
Proof.
  unfold columns_seen, tickers_seen.
  induction files as [|f files IH]; intros U T S;
    cbn [foldl List.flat_map List.map list_to_set].
  - split; symmetry; apply (right_id_L ∅ (∪)).
  - rewrite scan_file_step. destruct (pf_schema f) as [schema|];
      cbn [default from_option id List.map app].
    + destruct (IH (foldl collect_column (U, S) schema).1 ({[pf_ticker f]} ∪ T)
                  (foldl collect_column (U, S) schema).2) as [H1 H2].
      rewrite H1, H2, collect_columns_seen, list_to_set_app_L. split.
      * rewrite <- (assoc_L (∪)). reflexivity.
      * rewrite (comm_L (∪) {[pf_ticker f]} T), <- (assoc_L (∪)). reflexivity.
    + destruct (IH U ({[pf_ticker f]} ∪ T) S) as [H1 H2]. rewrite H1, H2. split.
      * reflexivity.
      * rewrite (comm_L (∪) {[pf_ticker f]} T), <- (assoc_L (∪)). reflexivity.
Qed.

(** The statement type just extracted, and the others. *)
Lemma extract_this (t : string) (files : list parquet_file) (self : extractor) :
  column_stats self !! t = None ->
  let self' := _extract_statement_schema t (Some files) self in
  let acc := foldl scan_file (∅, ∅, ∅) files in
  schemas self' !! t
    = Some (mkSchema (sort_by String.ltb (elements acc.1.1))
              (Z.of_nat (size acc.1.2)) (Z.of_nat (List.length files)))
  /\ column_stats self' !! t = Some acc.2.
Proof.
  intros Hnone. unfold _extract_statement_schema. rewrite Hnone.
  cbn [default from_option id].
  destruct (foldl scan_file (∅, ∅, ∅) files) as [[U T] S]. cbn.
  rewrite !lookup_insert_eq. split; reflexivity.
Qed.

Lemma extract_other (t t' : string) (files : option (list parquet_file))
    (self : extractor) :
  t' <> t ->
  schemas (_extract_statement_schema t' files self) !! t = schemas self !! t
  /\ column_stats (_extract_statement_schema t' files self) !! t
     = column_stats self !! t.
Proof.
  intros Hne. unfold _extract_statement_schema. destruct files as [files|]; [|auto].
  destruct (foldl scan_file _ files) as [[U T] S]. cbn.
  rewrite !lookup_insert_ne by exact Hne. auto.
Qed.

(** The entries of one statement type, from what its scan collected. *)
Lemma statement_unified_spec (self : extractor) (t : string) (files : list parquet_file) :
  let acc := foldl scan_file (∅, ∅, ∅) files in
  schemas self !! t
    = Some (mkSchema (sort_by String.ltb (elements acc.1.1))
              (Z.of_nat (size acc.1.2)) (Z.of_nat (List.length files))) ->
  column_stats self !! t = Some acc.2 ->
  exists info,
    statement_unified self t = Ok info
    /\ files_scanned info = Z.of_nat (List.length files)
    /\ forall c, forallb distinct_columns files = true -> In c (info_columns info) ->
         occurrence_count c = occurrences (name c) files
         /\ (is_common c = true <-> files_scanned info < 2 * occurrence_count c)
         /\ (forall d, In d (info_dtypes c) <-> d ∈ observed (name c) files)
         /\ (forall d, observed (name c) files = {[d]} -> primary_dtype c = d)
         /\ ((1 < size (observed (name c) files))%nat -> primary_dtype c = "Mixed").
Proof.
  intros acc Hs Hc. unfold statement_unified. rewrite Hs, Hc.
  cbn [s_columns s_files_scanned s_tickers_scanned default from_option id].
  eexists. split; [reflexivity|]. cbn [files_scanned info_columns].
  split; [reflexivity|]. intros c Hdistinct Hin.
  apply (Permutation_in _ (ListFacts.sort_by_perm _ _)) in Hin.
  apply in_map_iff in Hin as (col & <- & _).
  destruct (scan_files_stats files col ∅ ∅ ∅) as [Hcount Hdtypes].
  cbn zeta in Hcount, Hdtypes. fold acc in Hcount, Hdtypes.
  rewrite lookup_empty in Hcount, Hdtypes.
  cbn [default from_option id no_stats count dtypes] in Hcount, Hdtypes.
  rewrite (occurrences_flat files col Hdistinct), Z.add_0_l in Hcount.
  rewrite (left_id_L ∅ (∪)) in Hdtypes.
  unfold make_column_info. cbn [name occurrence_count is_common info_dtypes primary_dtype].
  rewrite Hcount, Hdtypes. split; [reflexivity|]. split; [apply Z.ltb_lt|]. split; [|split].
  - intros d. rewrite <- (elem_of_elements (observed col files)), list_elem_of_In.
    split; apply Permutation_in; [|symmetry]; apply ListFacts.sort_by_perm.
  - intros d ->. rewrite elements_singleton. reflexivity.
  - intros Hsize. unfold size, set_size in Hsize. cbn in Hsize.
    destruct (elements (observed col files)) as [|d1 [|d2 l]]; cbn in Hsize;
      [lia|lia|reflexivity].
Qed.

(** The entries of a statement type are one per column seen. *)
Lemma statement_unified_names (self : extractor) (t : string) (files : list parquet_file)
    (info : statement_info) :
  let acc := foldl scan_file (∅, ∅, ∅) files in
  schemas self !! t
    = Some (mkSchema (sort_by String.ltb (elements acc.1.1))
              (Z.of_nat (size acc.1.2)) (Z.of_nat (List.length files))) ->
  statement_unified self t = Ok info ->
  Permutation (List.map name (info_columns info)) (elements (columns_seen files)).
Proof.
  intros acc Hs. unfold statement_unified. rewrite Hs. intros [= <-].
  cbn [info_columns s_columns].
  destruct (scan_files_seen files ∅ ∅ ∅) as [Hseen _].
  rewrite (left_id_L ∅ (∪)) in Hseen. fold acc in Hseen.
  rewrite ListFacts.sort_by_perm, List.map_map. cbn [name make_column_info].
  rewrite List.map_id, ListFacts.sort_by_perm, Hseen. reflexivity.
Qed.

(** C8: in the unified schema produced by a new extractor, every
    statement type has its entry, and the entry has exactly one column
    entry for each column name found in the scanned files that could be
    read. For every column entry, [is_common] is true exactly when the
    occurrence count (the number of scanned files that have the column)
    exceeds half of the files scanned for that statement type, the entry's
    dtypes are those observed for the column in the scanned files, and
    [primary_dtype] is the observed dtype when there is exactly one and
    "Mixed" when there is more than one. *)
Theorem unified_schema_common_and_dtype (bronze : corpus) :
  (forall t, In t statement_types -> is_Some (bronze t)) ->
  exists unified,
    extract_all_schemas bronze = Ok unified
    /\ List.map fst unified = statement_types
    /\ forall t files info,
         bronze t = Some files ->
         In (t, info) unified ->
         files_scanned info = Z.of_nat (List.length files)
         /\ NoDup (List.map name (info_columns info))
         /\ (forall col, In col (List.map name (info_columns info))
                         <-> col ∈ columns_seen files)
         /\ forall c,
              forallb distinct_columns files = true ->
              In c (info_columns info) ->
              occurrence_count c = occurrences (name c) files
              /\ (is_common c = true <-> files_scanned info < 2 * occurrence_count c)
              /\ (forall d, In d (info_dtypes c) <-> d ∈ observed (name c) files)
              /\ (forall d, observed (name c) files = {[d]} -> primary_dtype c = d)
              /\ ((1 < size (observed (name c) files))%nat -> primary_dtype c = "Mixed").
Proof.
  intros Hall.
  destruct (Hall "balance_sheets") as [fb Hb]; [cbn; tauto|].
  destruct (Hall "income_statements") as [fi Hi]; [cbn; tauto|].
  destruct (Hall "cash_flow") as [fc Hc]; [cbn; tauto|].
  unfold extract_all_schemas. cbn [foldl statement_types]. rewrite Hb, Hi, Hc.
  set (s1 := _extract_statement_schema "balance_sheets" (Some fb) init).
  set (s2 := _extract_statement_schema "income_statements" (Some fi) s1).
  set (s3 := _extract_statement_schema "cash_flow" (Some fc) s2).
  assert (Hn1 : column_stats s1 !! "income_statements" = None).
  { destruct (extract_other "income_statements" "balance_sheets" (Some fb) init)
      as [_ H]; [done|]. etrans; [exact H|reflexivity]. }
  assert (Hn2 : column_stats s2 !! "cash_flow" = None).
  { destruct (extract_other "cash_flow" "income_statements" (Some fi) s1)
      as [_ H]; [done|]. etrans; [exact H|].
    destruct (extract_other "cash_flow" "balance_sheets" (Some fb) init)
      as [_ H']; [done|]. etrans; [exact H'|reflexivity]. }
  destruct (extract_this "balance_sheets" fb init eq_refl) as [Sb Cb].
  destruct (extract_this "income_statements" fi s1 Hn1) as [Si Ci].
  destruct (extract_this "cash_flow" fc s2 Hn2) as [Sc Cc].
  cbn zeta in Sb, Cb, Si, Ci, Sc, Cc. fold s1 in Sb, Cb. fold s2 in Si, Ci.
  fold s3 in Sc, Cc.
  destruct (extract_other "balance_sheets" "income_statements" (Some fi) s1)
    as [Sb2 Cb2]; [done|]. fold s2 in Sb2, Cb2. rewrite Sb in Sb2. rewrite Cb in Cb2.
  destruct (extract_other "balance_sheets" "cash_flow" (Some fc) s2)
    as [Sb3 Cb3]; [done|]. fold s3 in Sb3, Cb3. rewrite Sb2 in Sb3. rewrite Cb2 in Cb3.
  destruct (extract_other "income_statements" "cash_flow" (Some fc) s2)
    as [Si3 Ci3]; [done|]. fold s3 in Si3, Ci3. rewrite Si in Si3. rewrite Ci in Ci3.
  destruct (statement_unified_spec s3 "balance_sheets" fb Sb3 Cb3) as (ib & Eb & Fb & Pb).
  destruct (statement_unified_spec s3 "income_statements" fi Si3 Ci3)
    as (ii & Ei & Fi & Pi).
  destruct (statement_unified_spec s3 "cash_flow" fc Sc Cc) as (ic & Ec & Fc & Pc).
  pose proof (statement_unified_names s3 "balance_sheets" fb ib Sb3 Eb) as Nb.
  pose proof (statement_unified_names s3 "income_statements" fi ii Si3 Ei) as Ni.
  pose proof (statement_unified_names s3 "cash_flow" fc ic Sc Ec) as Nc.
  unfold _generate_unified_schema. cbn [unified_statements statement_types].
  rewrite Eb, Ei, Ec. cbn [mbind result_bind].
  eexists. split; [reflexivity|]. split; [reflexivity|].
  assert (Hnames : forall files info,
            Permutation (List.map name (info_columns info)) (elements (columns_seen files)) ->
            NoDup (List.map name (info_columns info))
            /\ forall col, In col (List.map name (info_columns info))
                           <-> col ∈ columns_seen files).
  { intros files info Hp. split; [rewrite Hp; apply NoDup_elements|].
    intros col. rewrite <- list_elem_of_In, Hp. apply elem_of_elements. }
  intros t files info Hfiles Hin.
  destruct Hin as [[= <- <-]|[[= <- <-]|[[= <- <-]|[]]]].
  - assert (files = fb) as -> by congruence. split; [exact Fb|].
    destruct (Hnames fb ib Nb) as [H1 H2]. split; [exact H1|]. split; [exact H2|].
    intros c Hd Hc'. apply Pb; assumption.
  - assert (files = fi) as -> by congruence. split; [exact Fi|].
    destruct (Hnames fi ii Ni) as [H1 H2]. split; [exact H1|]. split; [exact H2|].
    intros c Hd Hc'. apply Pi; assumption.
  - assert (files = fc) as -> by congruence. split; [exact Fc|].
    destruct (Hnames fc ic Nc) as [H1 H2]. split; [exact H1|]. split; [exact H2|].
    intros c Hd Hc'. apply Pc; assumption.
Qed.

Lemma unified_schema_common_and_dtype_witness :
  exists unified info assets goodwill,
    extract_all_schemas sample_bronze = Ok unified
    /\ In ("balance_sheets", info) unified
    /\ files_scanned info = 3
    /\ In assets (info_columns info) /\ name assets = "assets"
    /\ occurrence_count assets = 2 /\ is_common assets = true
    /\ primary_dtype assets = "Mixed"
    /\ In goodwill (info_columns info) /\ name goodwill = "goodwill"
    /\ occurrence_count goodwill = 1 /\ is_common goodwill = false
    /\ primary_dtype goodwill = "Float64".
Proof.
  destruct (unified_schema_common_and_dtype sample_bronze) as (u & E & Hkeys & H).
  { intros t [<-|[<-|[<-|[]]]]; eexists; reflexivity. }
  destruct u as [|[t info] u]; [discriminate Hkeys|].
  cbn [List.map fst statement_types] in Hkeys. injection Hkeys as -> Hkeys.
  destruct (H "balance_sheets" sample_balance_sheets info eq_refl (or_introl eq_refl))
    as (Hf & _ & Hnames & Hcols).
  assert (Ha : In "assets" (List.map name (info_columns info))).
  { apply Hnames. apply elem_of_list_to_set, list_elem_of_In. cbn. auto. }
  assert (Hg : In "goodwill" (List.map name (info_columns info))).
  { apply Hnames. apply elem_of_list_to_set, list_elem_of_In. cbn. auto 10. }
  apply in_map_iff in Ha as (assets & Hna & Ha).
  apply in_map_iff in Hg as (goodwill & Hng & Hg).
  destruct (Hcols assets eq_refl Ha) as (Hoa & Hca & _ & _ & Hma).
  destruct (Hcols goodwill eq_refl Hg) as (Hog & Hcg & _ & Hsg & _).
  rewrite Hna in Hoa, Hma. rewrite Hng in Hog, Hsg.
  change (occurrences "assets" sample_balance_sheets) with 2 in Hoa.
  change (occurrences "goodwill" sample_balance_sheets) with 1 in Hog.
  rewrite Hf, Hoa in Hca. rewrite Hf, Hog in Hcg.
  exists (("balance_sheets", info) :: u), info, assets, goodwill.
  split; [exact E|]. split; [left; reflexivity|]. split; [exact Hf|].
  split; [exact Ha|]. split; [exact Hna|]. split; [exact Hoa|].
  split; [apply Hca; reflexivity|]. split; [apply Hma; vm_compute; lia|].
  split; [exact Hg|]. split; [exact Hng|]. split; [exact Hog|].
  split.
  - destruct (is_common goodwill); [|reflexivity].
    assert (Hlt : Z.of_nat (List.length sample_balance_sheets) < 2 * 1)
      by (apply Hcg; reflexivity).
    vm_compute in Hlt. discriminate Hlt.
  - apply Hsg. vm_compute. reflexivity.
Defined.

End SchemaFacts.

(** ** The partition writer *)

Module PartitionFacts.
Import Polars Partition.

(** C9 (the code departs from it): on a table with a row whose ticker is
    null, [write_partitioned_silver] enumerates the combination
    (null, dividend) and writes a file for it at
    [ticker=None/event_type=dividend/data.parquet], but the filter
    [pl.col('ticker') == None] is null on every row: the file has zero rows
    and the row with the null ticker is in no file (two of the three input
    rows are on disk). *)
Lemma null_ticker_partition_is_empty :
  let out := write_partitioned_silver clock actions_with_null_ticker ∅ in
  files_written out.1 = 2
  /\ height <$> out.2 !! ["ticker=None"; "event_type=dividend"; "data.parquet"] = Some 0%nat
  /\ height <$> out.2 !! ["ticker=AAPL"; "event_type=dividend"; "data.parquet"] = Some 2%nat
  /\ rows_on_disk out.2 = 2%nat
  /\ height actions_with_null_ticker = 3%nat.
Proof. vm_compute. repeat split; reflexivity. Qed.

(** *** Tables without null ticker or event type *)

Lemma partition_path_inj (t e t' e' : string) :
  partition_path (Some t) (Some e) = partition_path (Some t') (Some e') ->
  t = t' /\ e = e'.
Proof.
  unfold partition_path, fmt. cbn [default from_option id]. intros H.
  injection H as Ht He. lazy [String.append] in Ht, He. auto.
Qed.

Lemma str_cell_eq (c s : string) (r : row) :
  cell_eq (r !! c) (Some (VStr s)) = Some true <-> str_cell c r = Some s.
Proof.
  unfold str_cell. destruct (r !! c) as [[x|x|x|x|y m d]|]; cbn; split; intros H;
    try discriminate.
  - injection H as H. apply String.eqb_eq in H. subst. reflexivity.
  - injection H as ->. rewrite String.eqb_refl. reflexivity.
Qed.

Lemma filter_in_partition (t e : string) (df : DataFrame) :
  rows (filter_rows
          (fun r => and_kleene (cell_eq (r !! "ticker") (VStr <$> Some t))
                               (cell_eq (r !! "event_type") (VStr <$> Some e))) df)
  = List.filter (in_partition t e) (rows df).
Proof.
  cbn [rows filter_rows fmap option_fmap option_map]. apply List.filter_ext. intros r.
  unfold in_partition.
  destruct (decide (str_cell "ticker" r = Some t)) as [Ht|Ht],
           (decide (str_cell "event_type" r = Some e)) as [He|He].
  - rewrite (bool_decide_eq_true_2 _ Ht), (bool_decide_eq_true_2 _ He).
    apply str_cell_eq in Ht, He. rewrite Ht, He. reflexivity.
  - rewrite (bool_decide_eq_false_2 _ He), andb_false_r. apply bool_decide_eq_false_2.
    intros H. apply He, str_cell_eq.
    destruct (cell_eq (r !! "ticker") (Some (VStr t))) as [[|]|],
             (cell_eq (r !! "event_type") (Some (VStr e))) as [[|]|];
      cbn in H; congruence.
  - rewrite (bool_decide_eq_false_2 _ Ht). apply bool_decide_eq_false_2.
    intros H. apply Ht, str_cell_eq.
    destruct (cell_eq (r !! "ticker") (Some (VStr t))) as [[|]|],
             (cell_eq (r !! "event_type") (Some (VStr e))) as [[|]|];
      cbn in H; congruence.
  - rewrite (bool_decide_eq_false_2 _ Ht). apply bool_decide_eq_false_2.
    intros H. apply Ht, str_cell_eq.
    destruct (cell_eq (r !! "ticker") (Some (VStr t))) as [[|]|],
             (cell_eq (r !! "event_type") (Some (VStr e))) as [[|]|];
      cbn in H; congruence.
Qed.

(** The frame of a non-null combination: its rows, newest first, with the
    processing columns. *)
Lemma partition_frame_rows (now t e : string) (df : DataFrame) :
  rows (partition_frame now (Some t) (Some e) df)
  = List.map (attach now)
      (sort_by by_event_date_desc (List.filter (in_partition t e) (rows df))).
Proof.
  unfold partition_frame. cbn [with_column rows sort_descending].
  rewrite filter_in_partition, !List.map_map. reflexivity.
Qed.

Lemma write_partitions_spec (now : nat -> string) (df : DataFrame)
    (parts : list (option string * option string)) :
  forall (i : nat) (fs : silver) (written : Z),
    NoDup (List.map (fun te => partition_path te.1 te.2) parts) ->
    let out := write_partitions now df i parts fs written in
    out.2 = written + Z.of_nat (List.length parts)
    /\ (forall p, ~ In p (List.map (fun te => partition_path te.1 te.2) parts) ->
          out.1 !! p = fs !! p)
    /\ forall k te, parts !! k = Some te ->
         out.1 !! partition_path te.1 te.2
         = Some (partition_frame (now (i + k)%nat) te.1 te.2 df).
Proof.
  induction parts as [|[t e] parts IH]; intros i fs written Hnd; cbn [write_partitions].
  - cbn. split; [lia|]. split; [auto|]. intros k te H. discriminate.
  - cbn [List.map fst snd] in Hnd. apply NoDup_cons in Hnd as [Hnotin Hnd].
    destruct (IH (S i) (<[partition_path t e := partition_frame (now i) t e df]> fs)
                (written + 1) Hnd) as (Hw & Hframe & Hfiles).
    cbn zeta in Hw, Hframe, Hfiles |- *. split; [|split].
    + rewrite Hw. cbn [List.length]. lia.
    + intros p Hp. cbn [List.map fst snd] in Hp.
      rewrite Hframe by (intros Hin; apply Hp; right; exact Hin).
      apply lookup_insert_ne. intros <-. apply Hp. left. reflexivity.
    + intros [|k] te Hk.
      * injection Hk as <-. cbn [fst snd]. rewrite Hframe.
        -- rewrite lookup_insert_eq, Nat.add_0_r. reflexivity.
        -- intros Hin. apply Hnotin, list_elem_of_In, Hin.
      * change (((t, e) :: parts) !! S k) with (parts !! k) in Hk.
        rewrite (Hfiles k te Hk). do 2 f_equal. f_equal. lia.
Qed.

(** On a table whose ticker and event type are never null, the writer does
    what is asked of it: one file per distinct combination, none empty,
    holding the rows of the combination newest first with the processing
    columns attached, and no other file touched. *)
Lemma partitions_written (now : nat -> string) (df : DataFrame) (fs : silver) :
  (forall r, In r (rows df) ->
     is_Some (str_cell "ticker" r) /\ is_Some (str_cell "event_type" r)) ->
  let out := write_partitioned_silver now df fs in
  files_written out.1 = Z.of_nat (List.length (partitions df))
  /\ NoDup (partitions df)
  /\ (forall r, In r (rows df) ->
        In (str_cell "ticker" r, str_cell "event_type" r) (partitions df))
  /\ (forall p, ~ In p (List.map (fun te => partition_path te.1 te.2) (partitions df)) ->
        out.2 !! p = fs !! p)
  /\ forall t e, In (t, e) (partitions df) ->
       exists ticker event_type i f,
         t = Some ticker /\ e = Some event_type
         /\ out.2 !! partition_path t e = Some f
         /\ rows f
            = List.map (attach (now i))
                (sort_by by_event_date_desc
                   (List.filter (in_partition ticker event_type) (rows df)))
         /\ Permutation
              (sort_by by_event_date_desc
                 (List.filter (in_partition ticker event_type) (rows df)))
              (List.filter (in_partition ticker event_type) (rows df))
         /\ ascending by_event_date_desc
              (sort_by by_event_date_desc
                 (List.filter (in_partition ticker event_type) (rows df)))
         /\ rows f <> [].
Proof.
  intros Hnn.
  assert (Hparts : forall t e, In (t, e) (partitions df) ->
            exists ticker event_type r,
              t = Some ticker /\ e = Some event_type /\ In r (rows df)
              /\ in_partition ticker event_type r = true).
  { intros t e Hin. unfold partitions in Hin.
    apply list_elem_of_In, elem_of_remove_dups, list_elem_of_In, in_map_iff in Hin
      as (r & Hr & Hin).
    injection Hr as <- <-. destruct (Hnn r Hin) as [[ticker Ht] [event_type He]].
    exists ticker, event_type, r. repeat split; auto.
    unfold in_partition. rewrite Ht, He, !bool_decide_eq_true_2 by reflexivity.
    reflexivity. }
  assert (Hnd : NoDup (List.map (fun te => partition_path te.1 te.2) (partitions df))).
  { apply NoDup_fmap_2_strong; [|apply NoDup_remove_dups].
    intros [t e] [t' e'] H1 H2 Hp. cbn [fst snd] in Hp.
    apply list_elem_of_In, Hparts in H1 as (a & b & _ & -> & -> & _).
    apply list_elem_of_In, Hparts in H2 as (a' & b' & _ & -> & -> & _).
    apply partition_path_inj in Hp as [-> ->]. reflexivity. }
  unfold write_partitioned_silver.
  destruct (write_partitions_spec now df (partitions df) 0 fs 0 Hnd) as (Hw & Hframe & Hfiles).
  destruct (write_partitions now df 0 (partitions df) fs 0) as [fs' written].
  cbn [fst snd files_written] in *. split; [lia|]. split; [apply NoDup_remove_dups|].
  split; [|split; [exact Hframe|]].
  - intros r Hr. unfold partitions.
    apply list_elem_of_In, elem_of_remove_dups, list_elem_of_In, in_map_iff.
    exists r. auto.
  - intros t e Hin. destruct (Hparts t e Hin) as (ticker & event_type & r & -> & -> & Hr & Hp).
    apply list_elem_of_In, list_elem_of_lookup in Hin as [k Hk].
    exists ticker, event_type, (0 + k)%nat. eexists.
    split; [reflexivity|]. split; [reflexivity|].
    split; [exact (Hfiles k _ Hk)|]. cbn [fst snd].
    split; [apply partition_frame_rows|].
    split; [apply ListFacts.sort_by_perm|].
    split; [apply PolarsFacts.sort_by_ascending; intros a b; apply PolarsFacts.cell_gtb_asym|].
    rewrite partition_frame_rows. intros Hnil. apply map_eq_nil in Hnil.
    assert (Hin : In r (sort_by by_event_date_desc
                          (List.filter (in_partition ticker event_type) (rows df)))).
    { apply (Permutation_in _ (Permutation_sym (ListFacts.sort_by_perm _ _))).
      apply filter_In. auto. }
    rewrite Hnil in Hin. destruct Hin.
Qed.

End PartitionFacts.
